(** * Bubble series: radii, rendering filter and axis padding

    A shallow embedding of [js/parts-more/BubbleSeries.js]: the series
    methods [getRadii] and [translate], the point method [haloPath] and the
    axis hook [Axis.prototype.beforePadding], with the properties of the
    bubble geometry proved (or refuted) over it.

    Numbers.  A JavaScript number is read as a real number: rounding of
    doubles, NaN and the infinities are not represented.  Where the source
    would compute with a value that is not a number ([undefined] turned
    into NaN, an unparseable size, a missing [radii] array) the embedding
    answers [None]; a result [Some _] is a run that stays within real
    arithmetic.  Division follows [Rdiv], and no run that answers [Some _]
    uses a quotient by 0: the divisions of the source are by a constant,
    behind a test of the divisor ([zRange > 0], [range > 0]), or a run
    that writes their result is ruled out by [writesNonNumber].  An axis
    is taken with its extremes computed: [min], [max], [dataMin] and
    [dataMax] are numbers.

    State.  [getRadii] assigns [this.radii]; [beforePadding] assigns
    [minPxSize], [maxPxSize] and [radii] on the series of the axis and
    [min], [max] and [allowZoomOutside] on the axis.  Each function returns
    the object after its assignments, and an axis carries its series as the
    last run left them, so that a second run starts from the state of the
    first.

    Helpers.  [pick], [pInt], [arrayMin] and [arrayMax] come from
    [parts/Utilities.js], which is not part of the sources at hand.  [pick]
    and [pInt] are modelled; [arrayMin] and [arrayMax] are an interface
    ([Utilities]) of which only one law is assumed. *)

From Stdlib Require Import Reals Lra Lia List String Ascii ZArith Bool.
Import ListNotations.

Open Scope R_scope.

(** ** JavaScript values *)

(** A value that may be [undefined], [null] or a number. *)
Inductive jsval : Type :=
| JUndefined
| JNull
| JNum (r : R).

(** Array cells of [xData], [yData], [zData] and [radii] hold a number or
    [null]; [None] is [null]. *)
Abbreviation nullable := (option R) (only parsing).

Definition of_null (v : nullable) : jsval :=
  match v with
  | Some r => JNum r
  | None => JNull
  end.

(** ToNumber of the language: [null] is 0, [undefined] is NaN ([None]). *)
Definition ToNumber (v : jsval) : option R :=
  match v with
  | JUndefined => None
  | JNull => Some 0
  | JNum r => Some r
  end.

Definition Rltb (a b : R) : bool := if Rlt_dec a b then true else false.
Definition Rleb (a b : R) : bool := if Rle_dec a b then true else false.
Definition Reqb (a b : R) : bool := if Req_dec_T a b then true else false.

(** The relational operators on values: a NaN operand compares false. *)
Definition js_lt (a b : jsval) : bool :=
  match ToNumber a, ToNumber b with
  | Some x, Some y => Rltb x y
  | _, _ => false
  end.

Module Math.

Definition abs : R -> R := Rabs.
Definition min : R -> R -> R := Rmin.
Definition max : R -> R -> R := Rmax.
Definition sqrt : R -> R := R_sqrt.sqrt.

(** Smallest integer not below [x]. *)
Definition ceil (x : R) : R := IZR (- Int_part (- x)).

(** Integer part towards zero. *)
Definition trunc (x : R) : Z :=
  if Rle_dec 0 x then Int_part x else (- Int_part (- x))%Z.

End Math.

Module Number.

(** Largest finite double, 2^1024 - 2^971. *)
Definition MAX_VALUE : R := IZR (2 ^ 1024 - 2 ^ 971).

End Number.

(** ** Helpers imported from [parts/Utilities.js] *)

(** Modelled from the spec: [H.pick] is imported by BubbleSeries.js and is
    not among the source files.  The spec reads it as "respecting zMin/zMax
    overrides" and "userMin/userMax absent": the first argument that is
    neither [undefined] nor [null], and [undefined] when there is none. *)
Definition pick (a b : jsval) : jsval :=
  match a with
  | JNum _ => a
  | _ => match b with
         | JNum _ => b
         | _ => JUndefined
         end
  end.

(** A [minSize] / [maxSize] option: a number or a string such as ["20%"]. *)
Inductive length_opt : Type :=
| LNum (n : R)
| LStr (s : string).

Definition isWhiteSpace (c : ascii) : bool :=
  let n := nat_of_ascii c in
  (Nat.leb 9 n && Nat.leb n 13) || Nat.eqb n 32.

Definition digit (c : ascii) : option Z :=
  let n := Z.of_nat (nat_of_ascii c) in
  if ((48 <=? n) && (n <=? 57))%Z then Some (n - 48)%Z else None.

Fixpoint skipWhiteSpace (s : string) : string :=
  match s with
  | String c r => if isWhiteSpace c then skipWhiteSpace r else s
  | EmptyString => s
  end.

(** The longest prefix of decimal digits; [None] when it is empty. *)
Fixpoint digits (s : string) (acc : option Z) : option Z :=
  match s with
  | String c r =>
      match digit c with
      | Some d =>
          digits r (Some (10 * match acc with Some a => a | None => 0 end + d)%Z)
      | None => acc
      end
  | EmptyString => acc
  end.

(** [parseInt(s, 10)] on a string; [None] is NaN. *)
Definition parseInt (s : string) : option Z :=
  match skipWhiteSpace s with
  | String "-" r => option_map Z.opp (digits r None)
  | String "+" r => digits r None
  | r => digits r None
  end.

(** A number prints without an exponent when it is 0 or lies between 1e-6
    and 1e21 in magnitude. *)
Definition plainDecimal (n : R) : bool :=
  Rleb (Rabs n) 0
  || (Rleb (/ 1000000) (Rabs n) && Rltb (Rabs n) (IZR (10 ^ 21))).

(** Modelled from the spec: [H.pInt] is not among the source files; sizes
    are "resolved" from numbers and percent strings, which is [parseInt] in
    base 10.  A number is first printed, so its integer part is read back;
    numbers that print with an exponent are left out ([None]). *)
Definition pInt (l : length_opt) : option R :=
  match l with
  | LNum n => if plainDecimal n then Some (IZR (Math.trunc n)) else None
  | LStr s => option_map IZR (parseInt s)
  end.

Fixpoint endsWithPercent (s : string) : bool :=
  match s with
  | EmptyString => false
  | String c EmptyString => Ascii.eqb c "%"
  | String _ r => endsWithPercent r
  end.

(** [/%$/.test(length)]: a number never prints with a percent sign. *)
Definition isPercent (l : length_opt) : bool :=
  match l with
  | LNum _ => false
  | LStr s => endsWithPercent s
  end.

(** [H.arrayMin] and [H.arrayMax] are imported from parts/Utilities.js,
    which is not among the source files.  The development is written
    against this interface: all it assumes of either helper is that, on an
    array that is not empty, the answer is one of the array's cells. *)
Class Utilities : Type := {
  arrayMin : list nullable -> jsval;
  arrayMax : list nullable -> jsval;
  arrayMin_cell : forall d ds,
      exists v, In v (d :: ds) /\ arrayMin (d :: ds) = of_null v;
  arrayMax_cell : forall d ds,
      exists v, In v (d :: ds) /\ arrayMax (d :: ds) = of_null v
}.

(** ** Series *)

Record SeriesOptions : Type := {
  minSize : length_opt;
  maxSize : length_opt;
  sizeBy : string;
  sizeByAbsoluteValue : bool;
  zThreshold : R;
  (** [zMin], [zMax]: optional overrides of the z range *)
  opt_zMin : jsval;
  opt_zMax : jsval;
  (** [false] only when the option is the boolean [false] *)
  displayNegative : bool
}.

Record Series : Type := {
  options : SeriesOptions;
  bubblePadding : bool;
  visible : bool;
  xData : list nullable;
  yData : list nullable;
  zData : list nullable;
  (** [None] until [getRadii] has run *)
  radii : option (list nullable);
  minPxSize : jsval;
  maxPxSize : jsval
}.

Definition set_radii (s : Series) (r : list nullable) : Series :=
  {| options := options s; bubblePadding := bubblePadding s;
     visible := visible s; xData := xData s; yData := yData s;
     zData := zData s; radii := Some r;
     minPxSize := minPxSize s; maxPxSize := maxPxSize s |}.

Definition set_pxSizes (s : Series) (lo hi : R) : Series :=
  {| options := options s; bubblePadding := bubblePadding s;
     visible := visible s; xData := xData s; yData := yData s;
     zData := zData s; radii := radii s;
     minPxSize := JNum lo; maxPxSize := JNum hi |}.

(** ** getRadii *)

Section GetRadii.

Variable o : SeriesOptions.
(** [zRange] is computed once, from the arguments, before the loop. *)
Variables zRange minSize' maxSize' : R.

Definition sizeByArea : bool := negb (String.eqb (sizeBy o) "width").

(** The absolute-value remap at the head of the loop body: the value and
    the loop's [zMin], [zMax] after it. *)
Definition remap (value : nullable) (zMin zMax : R) : nullable * R * R :=
  match value with
  | Some v =>
      if sizeByAbsoluteValue o
      then (Some (Math.abs (v - zThreshold o)),
            0,
            Math.max (zMax - zThreshold o) (Math.abs (zMin - zThreshold o)))
      else (value, zMin, zMax)
  | None => (value, zMin, zMax)
  end.

(** Relative size, "a number between 0 and 1". *)
Definition relPos (v zMin : R) : R :=
  if Rltb 0 zRange then (v - zMin) / zRange else 1 / 2.

Definition sized (pos : R) : R :=
  if sizeByArea && Rleb 0 pos then Math.sqrt pos else pos.

(** The radius of one value against the loop's current [zMin]. *)
Definition radiusOf (value : nullable) (zMin : R) : nullable :=
  match value with
  | None => None
  | Some v =>
      if Rltb v zMin
      then Some (minSize' / 2 - 1)
      else Some (Math.ceil
                   (minSize' + sized (relPos v zMin) * (maxSize' - minSize'))
                 / 2)
  end.

(** The loop over [zData]; [zMin] and [zMax] are assigned in the body and
    carried to the next iteration. *)
Fixpoint radiiLoop (zs : list nullable) (zMin zMax : R) : list nullable :=
  match zs with
  | [] => []
  | z :: rest =>
      let '(value, zMin1, zMax1) := remap z zMin zMax in
      radiusOf value zMin1 :: radiiLoop rest zMin1 zMax1
  end.

End GetRadii.

Definition getRadii (s : Series) (zMin zMax minSize maxSize : R) : Series :=
  set_radii s
    (radiiLoop (options s) (zMax - zMin) minSize maxSize (zData s) zMin zMax).

(** ** translate *)

(** What [translate] leaves on a point: a marker with its data-label box,
    or nothing to draw ([shapeArgs], [plotY] and [dlBox] are [undefined]). *)
Record Box : Type := { box_x : R; box_y : R; box_width : R; box_height : R }.

Inductive Geometry : Type :=
| Marker (radius width height : R) (dlBox : Box)
| Cleared.

Definition radiusAt (rs : list nullable) (i : nat) : jsval :=
  match nth_error rs i with
  | Some r => of_null r
  | None => JUndefined
  end.

(** The body of the loop for the point at index [i], whose pixel position
    [plotX], [plotY] comes from the parent [translate].  [isNumber(radius)]
    holds of a number only, not of [null] or [undefined]; a comparison with
    [this.minPxSize] left [undefined] is false. *)
Definition translatePoint (s : Series) (i : nat) (plotX plotY : R) : Geometry :=
  let radius :=
    match radii s with
    | Some rs => radiusAt rs i
    | None => JNum 0
    end in
  match radius, ToNumber (minPxSize s) with
  | JNum r, Some m =>
      if Rleb (m / 2) r
      then Marker r (2 * r) (2 * r)
             {| box_x := plotX - r; box_y := plotY - r;
                box_width := 2 * r; box_height := 2 * r |}
      else Cleared
  | _, _ => Cleared
  end.

(** [translate] on the points of the series, given as their positions. *)
Definition translate (s : Series) (data : list (R * R)) : list Geometry :=
  map (fun ip => translatePoint s (fst ip) (fst (snd ip)) (snd (snd ip)))
      (combine (seq 0 (List.length data)) data).

(** ** Axis.prototype.beforePadding *)

Record Chart : Type := {
  plotWidth : R;
  plotHeight : R;
  (** [chart.options.chart.ignoreHiddenSeries] *)
  ignoreHiddenSeries : bool
}.

Module Axis.

Record t : Type := {
  len : R;
  isXAxis : bool;
  isLog : bool;
  min : R;
  max : R;
  dataMin : R;
  dataMax : R;
  (** [axis.options.min], [axis.options.max] *)
  options_min : jsval;
  options_max : jsval;
  userMin : jsval;
  userMax : jsval;
  allowZoomOutside : bool;
  (** the series attached to the axis, as the objects they are after the
      last call that assigned to them *)
  series : list Series
}.

End Axis.

Definition isUndefined (v : jsval) : bool :=
  match v with
  | JUndefined => true
  | _ => false
  end.

(** NaN handed to [pick]: it is a number to [pick], and stays NaN. *)
Definition orNaN (x : option R) : jsval :=
  match x with
  | Some r => JNum r
  | None => JUndefined
  end.

Section BeforePadding.

Context {H : Utilities}.
Variable chart : Chart.

(** The condition under which a series is pushed on [activeSeries]. *)
Definition isActive (s : Series) : bool :=
  bubblePadding s && (visible s || negb (ignoreHiddenSeries chart)).

Definition smallestSize : R := Math.min (plotWidth chart) (plotHeight chart).

(** [extremes[prop]] for one of [minSize], [maxSize]. *)
Definition extreme (l : length_opt) : option R :=
  match pInt l with
  | Some n => Some (if isPercent l then smallestSize * n / 100 else n)
  | None => None
  end.

(** "Find the min and max Z": the running [zMin], [zMax] after one
    series. *)
Definition findZ (o : SeriesOptions) (zs : list nullable) (zMin zMax : R)
  : option (R * R) :=
  match zs with
  | [] => Some (zMin, zMax)
  | _ :: _ =>
      let lo :=
        option_map
          (fun m =>
             Math.min zMin
               (Math.max m
                  (if displayNegative o
                   then - Number.MAX_VALUE
                   else zThreshold o)))
          (ToNumber (arrayMin zs)) in
      let hi :=
        option_map (fun m => Math.max zMax m) (ToNumber (arrayMax zs)) in
      match ToNumber (pick (opt_zMin o) (orNaN lo)),
            ToNumber (pick (opt_zMax o) (orNaN hi)) with
      | Some zMin1, Some zMax1 => Some (zMin1, zMax1)
      | _, _ => None
      end
  end.

(** The first [each] over [this.series]: the series after the
    assignments to [minPxSize] and [maxPxSize], and the final [zMin],
    [zMax]. *)
Fixpoint collect (isX : bool) (ss : list Series) (zMin zMax : R)
  : option (list Series * (R * R)) :=
  match ss with
  | [] => Some ([], (zMin, zMax))
  | s :: rest =>
      if isActive s && isX
      then
        match extreme (minSize (options s)), extreme (maxSize (options s)) with
        | Some lo, Some hi =>
            match findZ (options s) (zData s) zMin zMax with
            | Some (zMin1, zMax1) =>
                match collect isX rest zMin1 zMax1 with
                | Some (rest1, z) =>
                    Some (set_pxSizes s lo (Math.max hi lo) :: rest1, z)
                | None => None
                end
            | None => None
            end
        | _, _ => None
        end
      else
        match collect isX rest zMin zMax with
        | Some (rest1, z) => Some (s :: rest1, z)
        | None => None
        end
  end.

Variable axis : Axis.t.

Definition range : R := Axis.max axis - Axis.min axis.
Definition transA : R := Axis.len axis / range.

(** One turn of the [while (i--)] loop: a cell of [data] and what
    [series.radii[i]] reads ([None] when [series.radii] is no array), with
    [pxMin], [pxMax] before and after.  [isNumber(data[i])] is the cell
    holding a number; a [null] radius counts as 0 in the subtraction and
    the addition. *)
Definition overflow (radius : option jsval) (d : nullable)
           (px : option (R * R)) : option (R * R) :=
  match d with
  | Some x =>
      if Rleb (Axis.dataMin axis) x && Rleb x (Axis.dataMax axis)
      then
        match px, radius with
        | Some (pxMin, pxMax), Some r =>
            match ToNumber r with
            | Some radius =>
                Some (Math.min ((x - Axis.min axis) * transA - radius) pxMin,
                      Math.max ((x - Axis.min axis) * transA + radius) pxMax)
            | None => None
            end
        | _, _ => None
        end
      else px
  | None => px
  end.

(** The loop runs from the last index down to 0. *)
Definition overflows (rs : option (list nullable)) (data : list nullable)
           (px : option (R * R)) : option (R * R) :=
  fold_right
    (fun di acc =>
       overflow (option_map (fun l => radiusAt l (snd di)) rs) (fst di) acc)
    px
    (combine data (seq 0 (List.length data))).

Definition dataOf (s : Series) : list nullable :=
  if Axis.isXAxis axis then xData s else yData s.

(** The body of the second [each], for one series of [activeSeries]. *)
Definition padSeries (zMin zMax : R) (s : Series) (px : option (R * R))
  : option (Series * option (R * R)) :=
  let s1 :=
    if Axis.isXAxis axis
    then match ToNumber (minPxSize s), ToNumber (maxPxSize s) with
         | Some lo, Some hi => Some (getRadii s zMin zMax lo hi)
         | _, _ => None
         end
    else Some s in
  match s1 with
  | Some s2 =>
      Some (s2,
            if Rltb 0 range
            then overflows (radii s2) (dataOf s2) px
            else px)
  | None => None
  end.

(** The second [each].  [activeSeries] holds the objects pushed by the
    first loop, in order: walking the series again and passing over the
    others visits the same objects. *)
Fixpoint measure (zMin zMax : R) (ss : list Series) (px : option (R * R))
  : option (list Series * (R * R)) :=
  match ss with
  | [] => match px with
          | Some p => Some ([], p)
          | None => None
          end
  | s :: rest =>
      if isActive s
      then
        match padSeries zMin zMax s px with
        | Some (s1, px1) =>
            match measure zMin zMax rest px1 with
            | Some (rest1, p) => Some (s1 :: rest1, p)
            | None => None
            end
        | None => None
        end
      else
        match measure zMin zMax rest px with
        | Some (rest1, p) => Some (s :: rest1, p)
        | None => None
        end
  end.

(** [pick(axis.options[key], axis[userKey]) === undefined] *)
Definition unpinned (opt user : jsval) : bool := isUndefined (pick opt user).

(** [transA] after [transA *= (axisLength + pxMin - pxMax) / axisLength],
    where [pxMax] has already been lowered by [axisLength]. *)
Definition paddedTransA (pxMin pxMax : R) : R :=
  transA * ((Axis.len axis + pxMin - (pxMax - Axis.len axis)) / Axis.len axis).

(** The closing [if]: the axis after the two assignments. *)
Definition pad (ss : list Series) (pxMin pxMax : R) : Axis.t :=
  let active := existsb isActive ss in
  let go := active && Rltb 0 range && negb (Axis.isLog axis) in
  let t := paddedTransA pxMin pxMax in
  {| Axis.len := Axis.len axis;
     Axis.isXAxis := Axis.isXAxis axis;
     Axis.isLog := Axis.isLog axis;
     Axis.min :=
       if go && unpinned (Axis.options_min axis) (Axis.userMin axis)
       then Axis.min axis + pxMin / t
       else Axis.min axis;
     Axis.max :=
       if go && unpinned (Axis.options_max axis) (Axis.userMax axis)
       then Axis.max axis + (pxMax - Axis.len axis) / t
       else Axis.max axis;
     Axis.dataMin := Axis.dataMin axis;
     Axis.dataMax := Axis.dataMax axis;
     Axis.options_min := Axis.options_min axis;
     Axis.options_max := Axis.options_max axis;
     Axis.userMin := Axis.userMin axis;
     Axis.userMax := Axis.userMax axis;
     Axis.allowZoomOutside := active || Axis.allowZoomOutside axis;
     Axis.series := ss |}.

(** Whether the closing [if] writes something that is no number.  An
    assignment [axis[keys[0]] += keys[2] / transA] divides by the scaled
    [transA]; the scaling has divided by [axisLength].  With [axisLength] at
    0 the scaled factor is NaN, and with the overflows adding up to
    [axisLength] it is 0: the quotient is then NaN or infinite.  When the
    [if] is not entered, or both sides are pinned, nothing is written. *)
Definition writesNonNumber (ss : list Series) (pxMin pxMax : R) : bool :=
  let go := existsb isActive ss && Rltb 0 range && negb (Axis.isLog axis) in
  go
  && (unpinned (Axis.options_min axis) (Axis.userMin axis)
      || unpinned (Axis.options_max axis) (Axis.userMax axis))
  && (Reqb (Axis.len axis) 0 || Reqb (paddedTransA pxMin pxMax) 0).

(** The whole function.  [None] when a size does not parse, a radius is read
    from a missing array, or the closing [if] writes NaN or an infinity. *)
Definition beforePadding : option Axis.t :=
  match collect (Axis.isXAxis axis) (Axis.series axis)
                Number.MAX_VALUE (- Number.MAX_VALUE) with
  | Some (ss1, (zMin, zMax)) =>
      match measure zMin zMax ss1 (Some (0, Axis.len axis)) with
      | Some (ss2, (pxMin, pxMax)) =>
          if writesNonNumber ss2 pxMin pxMax
          then None
          else Some (pad ss2 pxMin pxMax)
      | None => None
      end
  | None => None
  end.

End BeforePadding.

(** ** An instance of the helpers

    The theorems below hold for every instance of [Utilities]; the
    examples on concrete charts are run with this one. *)

(** Modelled from the spec: [H.arrayMin] is not among the source files.
    The "minimum z" of the spec is taken the way the library takes it: start
    from [data[0]], walk the array from its last index down and keep a cell
    when [data[i] < min], a comparison that reads [null] as 0. *)

Definition arrayMinLoop (data : list nullable) : jsval :=
  match data with
  | [] => JUndefined
  | d0 :: _ =>
      fold_right (fun d m => if js_lt (of_null d) m then of_null d else m)
                 (of_null d0) data
  end.

(** Modelled from the spec: [H.arrayMax] is not among the source files;
    the "maximum z", by the same loop with [data[i] > max]. *)
Definition arrayMaxLoop (data : list nullable) : jsval :=
  match data with
  | [] => JUndefined
  | d0 :: _ =>
      fold_right (fun d m => if js_lt m (of_null d) then of_null d else m)
                 (of_null d0) data
  end.

#[global, refine] Instance Highcharts : Utilities :=
  {| arrayMin := arrayMinLoop; arrayMax := arrayMaxLoop |}.
Proof.
  all: assert (forall (keep : jsval -> jsval -> bool) (l : list nullable)
                      (v0 : nullable),
                  exists v, (v = v0 \/ In v l) /\
                            fold_right
                              (fun d m =>
                                 if keep (of_null d) m then of_null d else m)
                              (of_null v0) l = of_null v) as cell.
  1, 3: intros keep l v0; induction l as [|d l [v [Hin Hv]]]; simpl;
    [ exists v0; auto
    | rewrite Hv; destruct (keep (of_null d) (of_null v));
      [exists d; auto | exists v; intuition] ].
  - intros d ds. unfold arrayMinLoop.
    destruct (cell js_lt (d :: ds) d) as [v [Hin Hv]].
    exists v. split; [destruct Hin as [->|]; simpl; auto | exact Hv].
  - intros d ds. unfold arrayMaxLoop.
    destruct (cell (fun a b => js_lt b a) (d :: ds) d) as [v [Hin Hv]].
    exists v. split; [destruct Hin as [->|]; simpl; auto | exact Hv].
Defined.

(** ** Relations between the series before and after a loop *)

(** The first loop, series by series. *)
Definition collected (chart : Chart) (isX : bool) (s s1 : Series) : Prop :=
  if isActive chart s && isX
  then exists lo hi,
      extreme chart (minSize (options s)) = Some lo /\
      extreme chart (maxSize (options s)) = Some hi /\
      s1 = set_pxSizes s lo (Math.max hi lo)
  else s1 = s.

(** The second loop, series by series. *)
Definition radiiSet (chart : Chart) (axis : Axis.t) (zMin zMax : R)
           (s1 s2 : Series) : Prop :=
  if isActive chart s1 && Axis.isXAxis axis
  then exists lo hi,
      ToNumber (minPxSize s1) = Some lo /\
      ToNumber (maxPxSize s1) = Some hi /\
      s2 = getRadii s1 zMin zMax lo hi
  else s2 = s1.

(** A contributing series is well formed when its sizes read as numbers
    and every point has a z cell. *)
Definition wellFormed (chart : Chart) (s : Series) : Prop :=
  isActive chart s = true ->
  pInt (minSize (options s)) <> None /\
  pInt (maxSize (options s)) <> None /\
  (List.length (xData s) <= List.length (zData s))%nat.

(** The series attached to an axis, replaced. *)
Definition withSeries (axis : Axis.t) (ss : list Series) : Axis.t :=
  {| Axis.len := Axis.len axis; Axis.isXAxis := Axis.isXAxis axis;
     Axis.isLog := Axis.isLog axis;
     Axis.min := Axis.min axis; Axis.max := Axis.max axis;
     Axis.dataMin := Axis.dataMin axis; Axis.dataMax := Axis.dataMax axis;
     Axis.options_min := Axis.options_min axis;
     Axis.options_max := Axis.options_max axis;
     Axis.userMin := Axis.userMin axis; Axis.userMax := Axis.userMax axis;
     Axis.allowZoomOutside := Axis.allowZoomOutside axis;
     Axis.series := ss |}.

(** [s] put at position [n] of [l]. *)
Definition insertAt (n : nat) (s : Series) (l : list Series) : list Series :=
  firstn n l ++ s :: skipn n l.

Definition insertedIn {A : Type} (n : nat) (s : Series)
           (r : option (list Series * A)) : option (list Series * A) :=
  match r with
  | Some (l, a) => Some (insertAt n s l, a)
  | None => None
  end.

(** What the first loop leaves of a series [s] without z values. *)
Definition collectedEmpty (chart : Chart) (s : Series) (isX : bool) : Series :=
  if isActive chart s && isX
  then match extreme chart (minSize (options s)),
             extreme chart (maxSize (options s)) with
       | Some lo, Some hi => set_pxSizes s lo (Math.max hi lo)
       | _, _ => s
       end
  else s.

(** What the second loop leaves of it. *)
Definition measuredEmpty (chart : Chart) (s : Series) (axis : Axis.t)
           (zMin zMax : R) : Series :=
  let s1 := collectedEmpty chart s (Axis.isXAxis axis) in
  if isActive chart s && Axis.isXAxis axis
  then match ToNumber (minPxSize s1), ToNumber (maxPxSize s1) with
       | Some lo, Some hi => getRadii s1 zMin zMax lo hi
       | _, _ => s1
       end
  else s1.


(** ** A point taken out of a series *)




(** ** Charts, axes and series used as examples *)

(** A bubble series as the series type builds it: [bubblePadding] is set on
    the prototype, and nothing has been computed yet. *)
Definition bubble (o : SeriesOptions) (xs ys zs : list nullable) : Series :=
  {| options := o; bubblePadding := true; visible := true;
     xData := xs; yData := ys; zData := zs;
     radii := None; minPxSize := JUndefined; maxPxSize := JUndefined |}.

Definition sizing (lo hi : length_opt) (by_ : string) (absolute : bool)
           (threshold : R) (zLo zHi : jsval) (negative : bool) : SeriesOptions :=
  {| minSize := lo; maxSize := hi; sizeBy := by_;
     sizeByAbsoluteValue := absolute; zThreshold := threshold;
     opt_zMin := zLo; opt_zMax := zHi; displayNegative := negative |}.

(** Sized by width, by absolute value around threshold 0. *)
Definition absWidth : SeriesOptions :=
  sizing (LNum 10) (LNum 40) "width" true 0 JUndefined JUndefined true.

(** Sized by width, by absolute value around threshold 2. *)
Definition absWidth2 : SeriesOptions :=
  sizing (LNum 10) (LNum 60) "width" true 2 JUndefined JUndefined true.

Definition plainWidth : SeriesOptions :=
  sizing (LNum 8) (LNum 20) "width" false 0 JUndefined JUndefined true.

Definition xAxis (l lo hi dLo dHi : R) (oLo oHi : jsval) (ss : list Series) : Axis.t :=
  {| Axis.len := l; Axis.isXAxis := true; Axis.isLog := false;
     Axis.min := lo; Axis.max := hi; Axis.dataMin := dLo; Axis.dataMax := dHi;
     Axis.options_min := oLo; Axis.options_max := oHi;
     Axis.userMin := JUndefined; Axis.userMax := JUndefined;
     Axis.allowZoomOutside := false; Axis.series := ss |}.

Definition plot200x100 : Chart :=
  {| plotWidth := 200; plotHeight := 100; ignoreHiddenSeries := true |}.

Definition fixed20 : SeriesOptions :=
  sizing (LStr "20") (LStr "20") "width" false 0 JUndefined JUndefined true.

Definition axisOnePoint : Axis.t :=
  xAxis 100 0 10 0 10 JUndefined JUndefined
        [bubble fixed20 [Some 0] [Some 0] [Some 5]].

Definition axisTwoPoints : Axis.t :=
  xAxis 100 0 10 0 10 JUndefined JUndefined
        [bubble fixed20 [Some 0; Some 10] [Some 0; Some 0] [Some 5; Some 5]].


(** The same axis with [axis.options.min] set. *)
Definition axisPinnedMin : Axis.t :=
  xAxis 100 0 10 0 10 (JNum 0) JUndefined
        [bubble fixed20 [Some 0; Some 10] [Some 0; Some 0] [Some 5; Some 5]].

(** Percent sizes on a plot area whose smaller side is not 100. *)
Definition plot300x60 : Chart :=
  {| plotWidth := 300; plotHeight := 60; ignoreHiddenSeries := true |}.

Definition axisPercent : Axis.t :=
  xAxis 100 0 10 0 10 JUndefined JUndefined
        [bubble (sizing (LStr "10%") (LStr "50%") "width" false 0
                        JUndefined JUndefined true)
                [Some 5] [Some 0] [Some 5]].

(** Sizes in conflict: [minSize: "50%"], [maxSize: "10%"]. *)
Definition conflicting : SeriesOptions :=
  sizing (LStr "50%") (LStr "10%") "width" false 0 JUndefined JUndefined true.

Definition axisConflict : Axis.t :=
  xAxis 100 0 10 0 10 JUndefined JUndefined
        [bubble conflicting [Some 5] [Some 0] [Some 1]].

Definition noNegative : SeriesOptions :=
  sizing (LStr "8") (LStr "20") "width" false 0 JUndefined JUndefined false.

Definition axisNegative : Axis.t :=
  xAxis 100 0 10 0 10 JUndefined JUndefined
        [bubble noNegative [Some 2; Some 8] [Some 0; Some 0] [Some (-5); Some 5]].

Definition ranged : SeriesOptions :=
  sizing (LStr "8") (LStr "20") "width" false 0 (JNum 5) (JNum 10) true.

Definition axisRanged : Axis.t :=
  xAxis 100 0 10 0 10 JUndefined JUndefined
        [bubble ranged [Some 2; Some 8] [Some 0; Some 0] [Some 1; Some 5]].

Definition fixed20z (zs : list nullable) : Series :=
  bubble fixed20 [Some 2; Some 8] [Some 0; Some 0] zs.





(** Three points, the middle one without a z value; 0 lies between the z
    values of the other two. *)
Definition mixed : SeriesOptions :=
  sizing (LStr "10") (LStr "30") "width" false 0 JUndefined JUndefined true.



(** The same points with z = 5, [null], 10: 0 lies below the z values. *)
Definition axisHoledAbove : Axis.t :=
  xAxis 100 0 10 0 10 JUndefined JUndefined
        [bubble mixed [Some 0; Some 5; Some 10] [Some 0; Some 0; Some 0]
                [Some 5; None; Some 10]].

Definition axisHoledAboveWithout : Axis.t :=
  xAxis 100 0 10 0 10 JUndefined JUndefined
        [bubble mixed [Some 0; Some 10] [Some 0; Some 0] [Some 5; Some 10]].



(** ** Definitions for the further properties *)

(** ** haloPath *)

(** [v || 0]: [undefined], [null] and 0 give 0. *)
Definition orZero (v : jsval) : R :=
  match v with
  | JNum r => r
  | _ => 0
  end.

(** The size that the point's [haloPath] hands to
    [Point.prototype.haloPath]; [marker] is [this.marker.radius], or [None]
    when the point has no [marker] object. *)
Definition haloPath (marker : option jsval) (size : R) : R :=
  if Reqb size 0
  then 0
  else match marker with
       | Some radius => orZero radius
       | None => 0
       end + size.

(** [point.marker.radius] after [translate]: the shape arguments are merged
    into the marker of a point that is drawn, and the marker of any other
    point is left as it was. *)
Definition markerRadius (g : Geometry) (before : option jsval) : option jsval :=
  match g with
  | Marker r _ _ _ => Some (JNum r)
  | Cleared => before
  end.

(** Sized by area, from 0 to 30 pixels. *)
Definition plainArea : SeriesOptions :=
  sizing (LNum 0) (LNum 30) "area" false 0 JUndefined JUndefined true.

(** What [beforePadding] never assigns on a series: its options, its
    flags and its data. *)
Definition keepsData (s s' : Series) : Prop :=
  options s' = options s /\
  bubblePadding s' = bubblePadding s /\ visible s' = visible s /\
  xData s' = xData s /\ yData s' = yData s /\ zData s' = zData s.

(** A series of another type on the same axis: no [bubblePadding]. *)
Definition otherSeries (xs ys : list nullable) : Series :=
  {| options := plainWidth; bubblePadding := false; visible := true;
     xData := xs; yData := ys; zData := [];
     radii := None; minPxSize := JUndefined; maxPxSize := JUndefined |}.

Definition yAxis (l lo hi dLo dHi : R) (ss : list Series) : Axis.t :=
  {| Axis.len := l; Axis.isXAxis := false; Axis.isLog := false;
     Axis.min := lo; Axis.max := hi; Axis.dataMin := dLo; Axis.dataMax := dHi;
     Axis.options_min := JUndefined; Axis.options_max := JUndefined;
     Axis.userMin := JUndefined; Axis.userMax := JUndefined;
     Axis.allowZoomOutside := false; Axis.series := ss |}.

(** The series of [axisTwoPoints] after the run on its X axis. *)
Definition sizedTwoPoints : Series :=
  getRadii (set_pxSizes
              (bubble fixed20 [Some 0; Some 10] [Some 3; Some 4]
                      [Some 5; Some 5]) 20 20) 5 5 20 20.

(** The bubble of radius [r] around the pixel position of [x] lies between
    the bounds [p]. *)
Definition encloses (axis : Axis.t) (p : R * R) (x r : R) : Prop :=
  fst p <= (x - Axis.min axis) * transA axis - r /\
  (x - Axis.min axis) * transA axis + r <= snd p.

(** The series with [visible] set to [false]. *)
Definition hide (s : Series) : Series :=
  {| options := options s; bubblePadding := bubblePadding s;
     visible := false; xData := xData s; yData := yData s;
     zData := zData s; radii := radii s;
     minPxSize := minPxSize s; maxPxSize := maxPxSize s |}.

(** The extent of an axis. *)
Definition extent (axis : Axis.t) : R * R := (Axis.min axis, Axis.max axis).

(** A chart that counts hidden series. *)
Definition plotCountingHidden : Chart :=
  {| plotWidth := 200; plotHeight := 100; ignoreHiddenSeries := false |}.

(** * Properties *)

(** ** Real-number toolkit *)

Lemma Rltb_true a b : a < b -> Rltb a b = true.
Proof. intros; unfold Rltb; destruct (Rlt_dec a b); [reflexivity | contradiction]. Qed.

Lemma Rltb_false a b : b <= a -> Rltb a b = false.
Proof. intros; unfold Rltb; destruct (Rlt_dec a b); [lra | reflexivity]. Qed.

Lemma Rleb_true a b : a <= b -> Rleb a b = true.
Proof. intros; unfold Rleb; destruct (Rle_dec a b); [reflexivity | contradiction]. Qed.

Lemma Rleb_false a b : b < a -> Rleb a b = false.
Proof. intros; unfold Rleb; destruct (Rle_dec a b); [lra | reflexivity]. Qed.

Lemma Reqb_true a b : a = b -> Reqb a b = true.
Proof. intros; unfold Reqb; destruct (Req_dec_T a b); [reflexivity | contradiction]. Qed.

Lemma Reqb_false a b : a <> b -> Reqb a b = false.
Proof. intros; unfold Reqb; destruct (Req_dec_T a b); [contradiction | reflexivity]. Qed.

Lemma ceil_ge x : x <= Math.ceil x.
Proof.
  unfold Math.ceil. rewrite opp_IZR.
  destruct (base_Int_part (- x)) as [H1 _]. lra.
Qed.

Lemma ceil_lt x : Math.ceil x < x + 1.
Proof.
  unfold Math.ceil. rewrite opp_IZR.
  destruct (base_Int_part (- x)) as [_ H2]. lra.
Qed.

Lemma ceil_mono x y : x <= y -> Math.ceil x <= Math.ceil y.
Proof.
  intros Hxy.
  pose proof (ceil_lt x) as Hx. pose proof (ceil_ge y) as Hy.
  unfold Math.ceil in *.
  apply IZR_le.
  assert (IZR (- Int_part (- x)) < IZR (- Int_part (- y) + 1)) as Hlt
      by (rewrite plus_IZR; lra).
  apply lt_IZR in Hlt. lia.
Qed.

Lemma ceil_IZR n : Math.ceil (IZR n) = IZR n.
Proof.
  pose proof (ceil_lt (IZR n)) as H1. pose proof (ceil_ge (IZR n)) as H2.
  unfold Math.ceil in *. f_equal.
  assert (IZR (- Int_part (- IZR n)) < IZR (n + 1)) as Hlt
      by (rewrite plus_IZR; lra).
  apply lt_IZR in Hlt. apply le_IZR in H2. lia.
Qed.

Lemma MAX_VALUE_big : 1000000 < Number.MAX_VALUE.
Proof. unfold Number.MAX_VALUE. apply IZR_lt. reflexivity. Qed.

Global Opaque Number.MAX_VALUE.

(** ** The size options as the helpers read them *)

Example parseInt_percent : parseInt "20%" = Some 20%Z.
Proof. reflexivity. Qed.

Example parseInt_leading_space_and_unit : parseInt " 12px" = Some 12%Z.
Proof. reflexivity. Qed.

Example parseInt_negative_fraction : parseInt "-7.5" = Some (-7)%Z.
Proof. reflexivity. Qed.

Example parseInt_no_digits : parseInt "auto" = None.
Proof. reflexivity. Qed.

Example isPercent_only_at_the_end :
  isPercent (LStr "20%") = true /\ isPercent (LStr "2%0") = false.
Proof. split; reflexivity. Qed.

Lemma Int_part_IZR n : Int_part (IZR n) = n.
Proof.
  destruct (base_Int_part (IZR n)) as [H1 H2].
  apply le_IZR in H1.
  assert (IZR n < IZR (Int_part (IZR n) + 1)) as H3 by (rewrite plus_IZR; lra).
  apply lt_IZR in H3. lia.
Qed.

(** A positive integer below 1e21 is read back as it is. *)
Lemma pInt_integer n : (0 < n < 10 ^ 21)%Z -> pInt (LNum (IZR n)) = Some (IZR n).
Proof.
  intros [Hpos Hbig]. unfold pInt, plainDecimal, Math.trunc.
  assert (1 <= IZR n) as H1 by (apply IZR_le; lia).
  rewrite Rabs_pos_eq by lra.
  rewrite Rleb_false by lra. rewrite Rleb_true by lra.
  rewrite Rltb_true by now apply IZR_lt.
  simpl. destruct (Rle_dec 0 (IZR n)); [|lra].
  now rewrite Int_part_IZR.
Qed.

Example pInt_default_minSize : pInt (LNum 8) = Some 8.
Proof. apply (pInt_integer 8). split; reflexivity. Qed.

Ltac rdecide :=
  repeat match goal with
    | |- context [Rltb ?a ?b] =>
        first [rewrite (Rltb_true a b) by lra | rewrite (Rltb_false a b) by lra]
    | |- context [Rleb ?a ?b] =>
        first [rewrite (Rleb_true a b) by lra | rewrite (Rleb_false a b) by lra]
    | |- context [Reqb ?a ?b] =>
        first [rewrite (Reqb_true a b) by lra
              | rewrite (Reqb_false a b) by (intro; lra)]
    | |- context [Rmin ?a ?b] =>
        first [rewrite (Rmin_left a b) by lra | rewrite (Rmin_right a b) by lra]
    | |- context [Rmax ?a ?b] =>
        first [rewrite (Rmax_left a b) by lra | rewrite (Rmax_right a b) by lra]
    | |- context [Rabs ?a] =>
        first [rewrite (Rabs_pos_eq a) by lra | rewrite (Rabs_left1 a) by lra]
    end.

Lemma ceil_eq x n : x = IZR n -> Math.ceil x = IZR n.
Proof. intros ->. apply ceil_IZR. Qed.

(** Rewrites the first [Math.ceil] of the goal whose argument is the
    integer [n]. *)
Ltac ceil_is n :=
  match goal with
  | |- context [Math.ceil ?x] => rewrite (ceil_eq x n) by lra
  end.

(** ** getRadii: the loop without the absolute-value remap *)

Section PlainSizing.

Variable o : SeriesOptions.
Variables zRange lo hi : R.
Hypothesis plain : sizeByAbsoluteValue o = false.

Lemma remap_plain z zMin zMax : remap o z zMin zMax = (z, zMin, zMax).
Proof. unfold remap. rewrite plain. destruct z; reflexivity. Qed.

Lemma radiiLoop_plain zs zMin zMax :
  radiiLoop o zRange lo hi zs zMin zMax
  = map (fun z => radiusOf o zRange lo hi z zMin) zs.
Proof.
  induction zs as [|z zs IH]; simpl; [reflexivity|].
  rewrite remap_plain, IH. reflexivity.
Qed.

Lemma radiiLoop_plain_nth zs zMin zMax i z :
  nth_error zs i = Some z ->
  nth_error (radiiLoop o zRange lo hi zs zMin zMax) i
  = Some (radiusOf o zRange lo hi z zMin).
Proof.
  intros Hz. rewrite radiiLoop_plain.
  exact (map_nth_error (fun z => radiusOf o zRange lo hi z zMin) i zs Hz).
Qed.

End PlainSizing.

Lemma radiiLoop_length o zR lo hi zs :
  forall zMin zMax,
    List.length (radiiLoop o zR lo hi zs zMin zMax) = List.length zs.
Proof.
  induction zs as [|z zs IH]; intros zMin zMax; simpl; [reflexivity|].
  destruct (remap o z zMin zMax) as [[v a] b]. simpl. now rewrite IH.
Qed.

Lemma relPos_nonneg zR v zMin : zMin <= v -> 0 <= relPos zR v zMin.
Proof.
  intros Hv. unfold relPos, Rltb. destruct (Rlt_dec 0 zR) as [Hr|Hr]; [|lra].
  apply Rmult_le_pos; [lra|]. left. now apply Rinv_0_lt_compat.
Qed.

Lemma relPos_mono zR v w zMin :
  0 < zR -> v <= w -> relPos zR v zMin <= relPos zR w zMin.
Proof.
  intros Hr Hvw. unfold relPos. rewrite Rltb_true by assumption.
  apply Rmult_le_compat_r; [left; now apply Rinv_0_lt_compat | lra].
Qed.

Lemma sized_mono o p q : 0 <= p -> p <= q -> sized o p <= sized o q.
Proof.
  intros Hp Hpq. unfold sized.
  rewrite (Rleb_true 0 p), (Rleb_true 0 q) by lra.
  destruct (sizeByArea o); simpl; [|assumption].
  apply sqrt_le_1; lra.
Qed.

Lemma radiusOf_mono o zR lo hi zMin v w :
  0 < zR -> lo <= hi -> zMin <= v -> v <= w ->
  exists r1 r2,
    radiusOf o zR lo hi (Some v) zMin = Some r1 /\
    radiusOf o zR lo hi (Some w) zMin = Some r2 /\
    r1 <= r2.
Proof.
  intros Hr Hlh Hv Hvw. unfold radiusOf.
  rewrite (Rltb_false v zMin), (Rltb_false w zMin) by lra.
  eexists _, _. split; [reflexivity|]. split; [reflexivity|].
  apply Rmult_le_compat_r; [lra|]. apply ceil_mono.
  apply Rplus_le_compat_l. apply Rmult_le_compat_r; [lra|].
  apply sized_mono; [now apply relPos_nonneg | now apply relPos_mono].
Qed.

Ltac js_unfold :=
  cbv beta iota zeta delta
    [beforePadding collect measure padSeries overflows overflow pad
     writesNonNumber paddedTransA transA range dataOf unpinned isUndefined pick orNaN
     findZ extreme smallestSize isActive pInt isPercent endsWithPercent
     parseInt skipWhiteSpace digits digit isWhiteSpace
     getRadii set_radii set_pxSizes radiiLoop remap radiusOf relPos sized
     sizeByArea radiusAt translate translatePoint
     arrayMin arrayMax Highcharts arrayMinLoop arrayMaxLoop js_lt
     ToNumber of_null
     Math.abs Math.max Math.min
     bubble sizing xAxis
     options bubblePadding visible xData yData zData radii minPxSize maxPxSize
     minSize maxSize sizeBy sizeByAbsoluteValue zThreshold opt_zMin opt_zMax
     displayNegative plotWidth plotHeight ignoreHiddenSeries
     Axis.len Axis.isXAxis Axis.isLog Axis.min Axis.max Axis.dataMin
     Axis.dataMax Axis.options_min Axis.options_max Axis.userMin Axis.userMax
     Axis.allowZoomOutside Axis.series
     fold_right combine seq List.length nth_error option_map existsb map app
     andb orb negb fst snd
     String.eqb Ascii.eqb Bool.eqb
     nat_of_ascii N_of_ascii N_of_digits N.to_nat N.add N.mul Pos.to_nat
     Pos.iter_op Pos.add Pos.succ Pos.mul Nat.add Nat.mul Nat.leb Nat.eqb
     Z.of_nat Pos.of_succ_nat Z.leb Z.compare Pos.compare Pos.compare_cont
     Z.add Z.mul Z.sub Z.pos_sub Z.double Z.succ_double Z.pred_double
     Pos.pred_double Z.opp].

Ltac js_eval :=
  pose proof MAX_VALUE_big;
  repeat (progress (js_unfold; rdecide)).

Ltac unfold_radii :=
  unfold getRadii, set_radii, bubble, radiiLoop, remap, radiusOf, relPos,
    sized, sizeByArea, Math.abs, Math.max, Math.min;
  cbn [radii zData options sizing absWidth absWidth2 plainWidth
       sizeByAbsoluteValue zThreshold sizeBy
       String.eqb Ascii.eqb Bool.eqb negb andb].

(** The formula of the [else] branch, when values are not remapped. *)
Lemma getRadii_formula (s : Series) (zMin zMax lo hi : R) (i : nat) (v : R) :
  sizeByAbsoluteValue (options s) = false ->
  nth_error (zData s) i = Some (Some v) ->
  zMin <= v ->
  exists base pos rs,
    (0 < zMax - zMin -> base = (v - zMin) / (zMax - zMin)) /\
    (zMax - zMin <= 0 -> base = 1 / 2) /\
    (sizeBy (options s) = "width"%string -> pos = base) /\
    (sizeBy (options s) <> "width"%string -> pos = Math.sqrt base) /\
    radii (getRadii s zMin zMax lo hi) = Some rs /\
    nth_error rs i = Some (Some (Math.ceil (lo + pos * (hi - lo)) / 2)).
Proof.
  intros Hplain Hz Hv.
  exists (relPos (zMax - zMin) v zMin),
         (sized (options s) (relPos (zMax - zMin) v zMin)).
  eexists. repeat split.
  - intros Hr. unfold relPos. now rewrite Rltb_true.
  - intros Hr. unfold relPos. now rewrite Rltb_false.
  - intros Hw. unfold sized, sizeByArea. rewrite Hw. reflexivity.
  - intros Hw. unfold sized, sizeByArea.
    apply String.eqb_neq in Hw. rewrite Hw.
    rewrite Rleb_true by now apply relPos_nonneg. reflexivity.
  - simpl. rewrite (radiiLoop_plain_nth _ _ _ _ Hplain _ _ _ _ _ Hz).
    unfold radiusOf. now rewrite Rltb_false.
Qed.

(** C2.  Failing input: sized by absolute value (threshold 0, by width),
    [getRadii(-10, 5, 10, 40)] on the single value -10.  The value remaps
    to 10 and the working range to [0, 10], so the claimed relative size is
    (10 - 0) / (10 - 0) = 1 and the claimed radius is ceil(40) / 2 = 20; the
    code divides by [zRange = 5 - (-10)], computed before the remap, and
    returns 15. *)
Theorem getRadii_abs_divides_by_stale_range :
  radii (getRadii (bubble absWidth [Some 0] [Some 0] [Some (-10)]) (-10) 5 10 40)
  = Some [Some 15]
  /\ remap absWidth (Some (-10)) (-10) 5 = (Some 10, 0, 10)
  /\ Math.ceil (10 + (10 - 0) / (10 - 0) * (40 - 10)) / 2 = 20.
Proof.
  split; [|split].
  - unfold_radii. rdecide. ceil_is 30%Z. do 3 f_equal. lra.
  - unfold remap, Math.abs, Math.max.
    cbn [absWidth sizing sizeByAbsoluteValue zThreshold]. rdecide.
    do 2 f_equal; [f_equal|]; lra.
  - ceil_is 40%Z. lra.
Qed.

(** C4.  Failing input: sized by absolute value around threshold 2 (by
    width), [getRadii(0, 10, 10, 60)] on the single value 10.  The value
    remaps to 8, the range to zMin' = 0 and zMax' = max(10 - 2, |0 - 2|) = 8,
    so the largest value should take relative size 8 / (8 - 0) = 1 and radius
    ceil(60) / 2 = 30; the denominator the code uses is still
    [zRange = 10 - 0], and the radius is ceil(10 + 8/10 * 50) / 2 = 25. *)
Theorem getRadii_abs_denominator_not_remapped :
  remap absWidth2 (Some 10) 0 10 = (Some 8, 0, 8)
  /\ radii (getRadii (bubble absWidth2 [Some 0] [Some 0] [Some 10]) 0 10 10 60)
     = Some [Some (Math.ceil (10 + (8 - 0) / (10 - 0) * (60 - 10)) / 2)]
  /\ Math.ceil (10 + (8 - 0) / (10 - 0) * (60 - 10)) / 2 = 25
  /\ Math.ceil (10 + (8 - 0) / (8 - 0) * (60 - 10)) / 2 = 30.
Proof.
  repeat split.
  - unfold remap, Math.abs, Math.max.
    cbn [absWidth2 sizing sizeByAbsoluteValue zThreshold]. rdecide.
    do 2 f_equal; [f_equal|]; lra.
  - unfold_radii. rdecide.
    match goal with
    | |- Some [Some (Math.ceil ?a / 2)] = Some [Some (Math.ceil ?b / 2)] =>
        replace a with b by lra
    end.
    reflexivity.
  - ceil_is 50%Z. lra.
  - ceil_is 60%Z. lra.
Qed.

(** C6, the claim as stated fails: sized by absolute value (threshold 0,
    by width) over the range [-10, 10] with pixel bounds 10 <= 40, the
    values -10 < 0 lie in the range and receive the radii 12.5 and 5. *)
Lemma getRadii_abs_not_monotone :
  exists r1 r2,
    radii (getRadii (bubble absWidth [Some 0; Some 1] [Some 0; Some 0]
                            [Some (-10); Some 0])
                    (-10) 10 10 40)
    = Some [Some r1; Some r2]
    /\ -10 <= -10 < 0 /\ 0 <= 10 /\ 0 < 10 - -10 /\ 10 <= 40
    /\ r2 < r1.
Proof.
  exists (25 / 2), 5. split.
  - unfold_radii. rdecide. ceil_is 25%Z. ceil_is 10%Z.
    do 3 f_equal. do 2 f_equal. lra.
  - lra.
Qed.

(** C6, amended: without [sizeByAbsoluteValue], for a range
    [zMax - zMin > 0] and pixel bounds [lo <= hi], two values
    [zMin <= z1 < z2 <= zMax] of the series receive radii [r1 <= r2]. *)
Theorem getRadii_monotone (s : Series) (zMin zMax lo hi : R)
        (i j : nat) (z1 z2 : R) :
  sizeByAbsoluteValue (options s) = false ->
  0 < zMax - zMin ->
  lo <= hi ->
  nth_error (zData s) i = Some (Some z1) ->
  nth_error (zData s) j = Some (Some z2) ->
  zMin <= z1 -> z1 < z2 -> z2 <= zMax ->
  exists rs r1 r2,
    radii (getRadii s zMin zMax lo hi) = Some rs /\
    nth_error rs i = Some (Some r1) /\
    nth_error rs j = Some (Some r2) /\
    r1 <= r2.
Proof.
  intros Hplain Hr Hlh Hi Hj H1 H12 H2.
  destruct (radiusOf_mono (options s) (zMax - zMin) lo hi zMin z1 z2)
    as [r1 [r2 [E1 [E2 Hle]]]]; try lra.
  eexists _, r1, r2. split; [reflexivity|].
  rewrite (radiiLoop_plain_nth _ _ _ _ Hplain _ _ _ _ _ Hi).
  rewrite (radiiLoop_plain_nth _ _ _ _ Hplain _ _ _ _ _ Hj).
  rewrite E1, E2. auto.
Qed.

(** The values 2 < 7 in the range [0, 10], with pixel bounds 8 <= 20. *)
Lemma getRadii_monotone_witness :
  exists rs r1 r2,
    radii (getRadii (bubble plainWidth [Some 0; Some 1] [Some 0; Some 0]
                            [Some 2; Some 7]) 0 10 8 20) = Some rs /\
    nth_error rs 0 = Some (Some r1) /\
    nth_error rs 1 = Some (Some r2) /\
    r1 <= r2.
Proof.
  apply (getRadii_monotone
           (bubble plainWidth [Some 0; Some 1] [Some 0; Some 0] [Some 2; Some 7])
           0 10 8 20 0 1 2 7);
    try reflexivity; lra.
Defined.

(** ** beforePadding: what the two loops preserve *)

Section Passes.

Context {H : Utilities}.
Variable chart : Chart.

Lemma isActive_set_pxSizes s lo hi :
  isActive chart (set_pxSizes s lo hi) = isActive chart s.
Proof. reflexivity. Qed.

Lemma isActive_getRadii s zMin zMax lo hi :
  isActive chart (getRadii s zMin zMax lo hi) = isActive chart s.
Proof. reflexivity. Qed.

Lemma collect_each isX ss :
  forall zMin zMax ss1 z,
    collect chart isX ss zMin zMax = Some (ss1, z) ->
    Forall2 (collected chart isX) ss ss1.
Proof.
  induction ss as [|s ss IH]; intros zMin zMax ss1 z; simpl.
  - intros [= <- _]. constructor.
  - destruct (isActive chart s && isX) eqn:Ha.
    + destruct (extreme chart (minSize (options s))) as [lo|] eqn:Elo; [|discriminate].
      destruct (extreme chart (maxSize (options s))) as [hi|] eqn:Ehi; [|discriminate].
      destruct (findZ (options s) (zData s) zMin zMax) as [[a b]|]; [|discriminate].
      destruct (collect chart isX ss a b) as [[rest1 z1]|] eqn:Ec; [|discriminate].
      intros [= <- _]. constructor; [|eauto].
      unfold collected. rewrite Ha. eauto.
    + destruct (collect chart isX ss zMin zMax) as [[rest1 z1]|] eqn:Ec; [|discriminate].
      intros [= <- _]. constructor; [|eauto].
      unfold collected. now rewrite Ha.
Qed.

Lemma collected_isActive isX s s1 :
  collected chart isX s s1 -> isActive chart s1 = isActive chart s.
Proof.
  unfold collected. destruct (isActive chart s && isX).
  - intros [lo [hi [_ [_ ->]]]]. reflexivity.
  - now intros ->.
Qed.

Lemma existsb_Forall2 (R : Series -> Series -> Prop) l l' :
  (forall s s1, R s s1 -> isActive chart s1 = isActive chart s) ->
  Forall2 R l l' ->
  existsb (isActive chart) l' = existsb (isActive chart) l.
Proof.
  intros HR HF. induction HF; simpl; [reflexivity|].
  now rewrite (HR _ _ H0), IHHF.
Qed.

Variable axis : Axis.t.

Lemma overflow_widens radius d px p :
  overflow axis radius d px = Some p ->
  exists q, px = Some q /\ fst p <= fst q /\ snd q <= snd p.
Proof.
  unfold overflow. destruct d as [x|].
  - destruct (Rleb (Axis.dataMin axis) x && Rleb x (Axis.dataMax axis)).
    + destruct px as [[a b]|]; [|discriminate].
      destruct radius as [r|]; [|discriminate].
      destruct (ToNumber r); [|discriminate].
      intros [= <-]. exists (a, b). simpl. split; [reflexivity|].
      split; [apply Rmin_r | apply Rmax_r].
    + intros ->. exists p. split; [reflexivity|lra].
  - intros ->. exists p. split; [reflexivity|lra].
Qed.

Lemma fold_overflow_widens {A : Type} (rad : A -> option jsval)
      (cell : A -> nullable) l px p :
  fold_right (fun x acc => overflow axis (rad x) (cell x) acc) px l = Some p ->
  exists q, px = Some q /\ fst p <= fst q /\ snd q <= snd p.
Proof.
  revert p. induction l as [|x l IH]; intros p; simpl.
  - intros ->. exists p. split; [reflexivity|lra].
  - intros Ho. apply overflow_widens in Ho. destruct Ho as [q [Eq [H1 H2]]].
    destruct (IH _ Eq) as [q0 [E0 [H3 H4]]].
    exists q0. split; [assumption|lra].
Qed.

Lemma overflows_widens rs data px p :
  overflows axis rs data px = Some p ->
  exists q, px = Some q /\ fst p <= fst q /\ snd q <= snd p.
Proof.
  unfold overflows.
  apply (fold_overflow_widens
           (fun di : nullable * nat =>
              option_map (fun l => radiusAt l (snd di)) rs) fst).
Qed.

Lemma padSeries_radiiSet zMin zMax s px s2 px2 :
  isActive chart s = true ->
  padSeries axis zMin zMax s px = Some (s2, px2) ->
  radiiSet chart axis zMin zMax s s2.
Proof.
  intros Ha. unfold padSeries, radiiSet. rewrite Ha. simpl.
  destruct (Axis.isXAxis axis).
  - destruct (ToNumber (minPxSize s)) as [lo|]; [|discriminate].
    destruct (ToNumber (maxPxSize s)) as [hi|]; [|discriminate].
    intros [= <- _]. eauto.
  - now intros [= <- _].
Qed.

Lemma padSeries_widens zMin zMax s px s2 p :
  padSeries axis zMin zMax s px = Some (s2, Some p) ->
  exists q, px = Some q /\ fst p <= fst q /\ snd q <= snd p.
Proof.
  unfold padSeries.
  destruct (if Axis.isXAxis axis then _ else _) as [s1|]; [|discriminate].
  destruct (Rltb 0 (range axis)).
  - intros [= _ Ho]. now apply overflows_widens in Ho.
  - intros [= _ ->]. exists p. split; [reflexivity|lra].
Qed.

Lemma measure_each zMin zMax ss :
  forall px ss2 p,
    measure chart axis zMin zMax ss px = Some (ss2, p) ->
    Forall2 (radiiSet chart axis zMin zMax) ss ss2 /\
    exists q, px = Some q /\ fst p <= fst q /\ snd q <= snd p.
Proof.
  induction ss as [|s ss IH]; intros px ss2 p; simpl.
  - destruct px as [q|]; [|discriminate]. intros [= <- <-].
    split; [constructor|]. exists q. split; [reflexivity|lra].
  - destruct (isActive chart s) eqn:Ha.
    + destruct (padSeries axis zMin zMax s px) as [[s1 px1]|] eqn:Ep; [|discriminate].
      destruct (measure chart axis zMin zMax ss px1) as [[rest1 p1]|] eqn:Em;
        [|discriminate].
      intros [= <- <-]. destruct (IH _ _ _ Em) as [HF [q [-> [H1 H2]]]].
      split.
      * constructor; [|assumption]. eapply padSeries_radiiSet; eassumption.
      * destruct (padSeries_widens _ _ _ _ _ _ Ep) as [q0 [E0 [H3 H4]]].
        exists q0. split; [assumption|lra].
    + destruct (measure chart axis zMin zMax ss px) as [[rest1 p1]|] eqn:Em;
        [|discriminate].
      intros [= <- <-]. destruct (IH _ _ _ Em) as [HF Hq].
      split; [|assumption]. constructor; [|assumption].
      unfold radiiSet. now rewrite Ha.
Qed.

Lemma radiiSet_isActive zMin zMax s s1 :
  radiiSet chart axis zMin zMax s s1 -> isActive chart s1 = isActive chart s.
Proof.
  unfold radiiSet. destruct (isActive chart s && Axis.isXAxis axis).
  - intros [lo [hi [_ [_ ->]]]]. reflexivity.
  - now intros ->.
Qed.

Lemma existsb_isActive_In l :
  existsb (isActive chart) l = true <->
  exists s, In s l /\ isActive chart s = true.
Proof. apply existsb_exists. Qed.

End Passes.

(** A side of the axis is open when neither the axis option nor the user
    extreme holds a number. *)
Lemma unpinned_iff opt user :
  unpinned opt user = true <->
  (forall r, opt <> JNum r) /\ (forall r, user <> JNum r).
Proof.
  unfold unpinned, pick. split.
  - intros Hu. split; intros r E; rewrite E in Hu;
      [discriminate | destruct opt; discriminate].
  - intros [Ha Hb]. destruct opt as [| |r]; [| |now destruct (Ha r)];
      (destruct user as [| |r]; [reflexivity|reflexivity|now destruct (Hb r)]).
Qed.

(** C1, the claim as stated fails.  One bubble of radius 10 at the left end
    of an axis of 100 pixels over [0, 10]: the loops accumulate
    [pxMin = -10] and [pxMax = 100].  With [pxMax] read before
    [axisLength] is taken off it, the claimed factor is
    (100 + -10 - 100) / 100 and the claimed minimum 0 + -10 / (10 * -0.1)
    = 10; the code leaves the minimum at -10/9. *)
Lemma scale_factor_uses_lowered_pxMax :
  exists ss axis',
    measure plot200x100 axisOnePoint 5 5
            [set_pxSizes (bubble fixed20 [Some 0] [Some 0] [Some 5]) 20 20]
            (Some (0, 100))
    = Some (ss, (-10, 100)) /\
    beforePadding plot200x100 axisOnePoint = Some axis' /\
    Axis.min axis' = -10 / 9 /\
    0 + -10 / (100 / (10 - 0) * ((100 + -10 - 100) / 100)) = 10.
Proof.
  eexists _, _. split; [|split; [|split]].
  - unfold axisOnePoint, fixed20, plot200x100. js_eval. ceil_is 20%Z. js_eval.
    do 2 f_equal. f_equal. lra.
  - unfold axisOnePoint, fixed20, plot200x100. js_eval. ceil_is 20%Z. js_eval.
    reflexivity.
  - cbv [Axis.min]. field.
  - field.
Qed.

(** ** beforePadding: the closing [if] *)

Section Closing.

Context {H : Utilities}.
Variable chart : Chart.
Variable axis : Axis.t.

Lemma writesNonNumber_idle ss pxMin pxMax :
  existsb (isActive chart) ss && Rltb 0 (range axis)
  && negb (Axis.isLog axis) = false ->
  writesNonNumber chart axis ss pxMin pxMax = false.
Proof. intros E. unfold writesNonNumber. cbv zeta. now rewrite E. Qed.

Lemma writesNonNumber_pinned ss pxMin pxMax :
  unpinned (Axis.options_min axis) (Axis.userMin axis) = false ->
  unpinned (Axis.options_max axis) (Axis.userMax axis) = false ->
  writesNonNumber chart axis ss pxMin pxMax = false.
Proof.
  intros E1 E2. unfold writesNonNumber. cbv zeta. rewrite E1, E2.
  now rewrite andb_false_r.
Qed.

Lemma writesNonNumber_numbers ss pxMin pxMax :
  Axis.len axis <> 0 -> paddedTransA axis pxMin pxMax <> 0 ->
  writesNonNumber chart axis ss pxMin pxMax = false.
Proof.
  intros Hl Ht. unfold writesNonNumber. cbv zeta.
  rewrite (Reqb_false _ _ Hl), (Reqb_false _ _ Ht). now rewrite andb_false_r.
Qed.


(** With the overflows leaving some of the axis, the scaled factor is
    positive. *)
Lemma paddedTransA_pos pxMin pxMax :
  0 < range axis -> 0 < Axis.len axis ->
  (pxMax - Axis.len axis) - pxMin < Axis.len axis ->
  0 < paddedTransA axis pxMin pxMax.
Proof.
  intros Hr Hl Ho. unfold paddedTransA, transA.
  apply Rmult_lt_0_compat; apply Rdiv_lt_0_compat; lra.
Qed.

(** On an axis of positive length whose overflows leave some of it, the
    closing [if] writes numbers. *)
Lemma writesNonNumber_room ss pxMin pxMax :
  0 < Axis.len axis ->
  (pxMax - Axis.len axis) - pxMin < Axis.len axis ->
  writesNonNumber chart axis ss pxMin pxMax = false.
Proof.
  intros Hl Ho. destruct (Rltb 0 (range axis)) eqn:Hr.
  - apply writesNonNumber_numbers; [lra|].
    apply Rgt_not_eq. apply paddedTransA_pos; try assumption.
    unfold Rltb in Hr. now destruct (Rlt_dec 0 (range axis)).
  - apply writesNonNumber_idle. rewrite Hr. now rewrite andb_false_r.
Qed.

(** A run that answers, opened: its two loops and its closing [if]. *)
Lemma beforePadding_opened axis' :
  beforePadding chart axis = Some axis' ->
  exists ss1 zMin zMax ss2 pxMin pxMax,
    collect chart (Axis.isXAxis axis) (Axis.series axis)
            Number.MAX_VALUE (- Number.MAX_VALUE) = Some (ss1, (zMin, zMax)) /\
    measure chart axis zMin zMax ss1 (Some (0, Axis.len axis))
    = Some (ss2, (pxMin, pxMax)) /\
    writesNonNumber chart axis ss2 pxMin pxMax = false /\
    axis' = pad chart axis ss2 pxMin pxMax.
Proof.
  unfold beforePadding.
  destruct (collect chart _ _ _ _) as [[ss1 [zMin zMax]]|]; [|discriminate].
  destruct (measure chart axis zMin zMax ss1 _) as [[ss2 [a b]]|] eqn:Hm;
    [|discriminate].
  destruct (writesNonNumber chart axis ss2 a b) eqn:Hw; [discriminate|].
  intros [= <-]. eexists _, _, _, _, _, _. eauto.
Qed.

Variables (ss1 ss2 : list Series) (zMin zMax pxMin pxMax : R).

Hypothesis Hc :
  collect chart (Axis.isXAxis axis) (Axis.series axis)
          Number.MAX_VALUE (- Number.MAX_VALUE) = Some (ss1, (zMin, zMax)).
Hypothesis Hm :
  measure chart axis zMin zMax ss1 (Some (0, Axis.len axis))
  = Some (ss2, (pxMin, pxMax)).

Lemma loops_keep_contributors :
  existsb (isActive chart) ss2 = existsb (isActive chart) (Axis.series axis).
Proof.
  destruct (measure_each chart axis _ _ _ _ _ _ Hm) as [HF2 _].
  rewrite (existsb_Forall2 chart _ _ _
             (radiiSet_isActive chart axis zMin zMax) HF2).
  apply (existsb_Forall2 chart _ _ _
           (collected_isActive chart (Axis.isXAxis axis))).
  eapply collect_each; eassumption.
Qed.

Lemma loops_widen : pxMin <= 0 /\ Axis.len axis <= pxMax.
Proof.
  destruct (measure_each chart axis _ _ _ _ _ _ Hm) as [_ [q [[= <-] [H1 H2]]]].
  simpl in H1, H2. now split.
Qed.

Lemma beforePadding_closing :
  beforePadding chart axis
  = if writesNonNumber chart axis ss2 pxMin pxMax
    then None
    else Some (pad chart axis ss2 pxMin pxMax).
Proof. unfold beforePadding. now rewrite Hc, Hm. Qed.

End Closing.

(** C1, amended: with [pxMin <= 0] and [pxMax >= axisLength] the overflows
    accumulated by the loops, an axis with a contributing series, a range
    [max - min > 0] and no logarithmic scale has its translate factor
    multiplied by (axisLength + pxMin - (pxMax - axisLength)) / axisLength.
    Where [axisLength] and the scaled factor [t] are not 0, the run ends
    with [axis.min] grown by [pxMin / t] when neither [axis.options.min]
    nor [axis.userMin] holds a number, and left alone when one of them
    does; likewise [axis.max], by [(pxMax - axisLength) / t].  With both
    sides holding a number, with no contributing series, with a range that
    is not positive or on a logarithmic axis, [axis.min] and [axis.max]
    keep their values. *)
Theorem beforePadding_pads {H : Utilities} (chart : Chart) (axis : Axis.t)
        (ss1 ss2 : list Series) (zMin zMax pxMin pxMax : R) :
  collect chart (Axis.isXAxis axis) (Axis.series axis)
          Number.MAX_VALUE (- Number.MAX_VALUE) = Some (ss1, (zMin, zMax)) ->
  measure chart axis zMin zMax ss1 (Some (0, Axis.len axis))
  = Some (ss2, (pxMin, pxMax)) ->
  let axisLength := Axis.len axis in
  let contributed :=
    exists s, In s (Axis.series axis) /\ isActive chart s = true in
  let t := axisLength / (Axis.max axis - Axis.min axis)
           * ((axisLength + pxMin - (pxMax - axisLength)) / axisLength) in
  let free (opt user : jsval) :=
    (forall r, opt <> JNum r) /\ (forall r, user <> JNum r) in
  let pinned (opt user : jsval) :=
    exists r, opt = JNum r \/ user = JNum r in
  pxMin <= 0 /\ axisLength <= pxMax /\
  (contributed -> 0 < Axis.max axis - Axis.min axis ->
   Axis.isLog axis = false -> axisLength <> 0 -> t <> 0 ->
   exists axis',
     beforePadding chart axis = Some axis' /\
     (free (Axis.options_min axis) (Axis.userMin axis) ->
      Axis.min axis' = Axis.min axis + pxMin / t) /\
     (pinned (Axis.options_min axis) (Axis.userMin axis) ->
      Axis.min axis' = Axis.min axis) /\
     (free (Axis.options_max axis) (Axis.userMax axis) ->
      Axis.max axis' = Axis.max axis + (pxMax - axisLength) / t) /\
     (pinned (Axis.options_max axis) (Axis.userMax axis) ->
      Axis.max axis' = Axis.max axis)) /\
  (~ contributed \/ Axis.max axis - Axis.min axis <= 0
   \/ Axis.isLog axis = true
   \/ (pinned (Axis.options_min axis) (Axis.userMin axis) /\
       pinned (Axis.options_max axis) (Axis.userMax axis)) ->
   exists axis',
     beforePadding chart axis = Some axis' /\
     Axis.min axis' = Axis.min axis /\ Axis.max axis' = Axis.max axis).
Proof.
  intros Hc Hm axisLength contributed t free pinned.
  pose proof (loops_widen chart axis _ _ _ _ _ _ Hm) as [H1 H2].
  pose proof (loops_keep_contributors chart axis _ _ _ _ _ _ Hc Hm) as Hex.
  rewrite (beforePadding_closing chart axis _ _ _ _ _ _ Hc Hm).
  assert (forall opt user, pinned opt user -> unpinned opt user = false) as Hpin.
  { intros opt user [r [-> | ->]]; [reflexivity | now destruct opt]. }
  split; [assumption|]. split; [assumption|]. split.
  - intros Hcon Hr Hlog Hlen Ht.
    rewrite writesNonNumber_numbers by assumption.
    eexists. split; [reflexivity|].
    apply existsb_isActive_In in Hcon.
    unfold pad, paddedTransA, transA, range. cbn [Axis.min Axis.max].
    rewrite Hex, Hcon, Hlog. rewrite Rltb_true by assumption.
    fold axisLength. fold t. simpl.
    repeat split.
    + intros Hf. apply unpinned_iff in Hf. now rewrite Hf.
    + intros Hp. now rewrite (Hpin _ _ Hp).
    + intros Hf. apply unpinned_iff in Hf. now rewrite Hf.
    + intros Hp. now rewrite (Hpin _ _ Hp).
  - intros Hidle.
    assert (existsb (isActive chart) ss2 && Rltb 0 (range axis)
            && negb (Axis.isLog axis) = false
            \/ (unpinned (Axis.options_min axis) (Axis.userMin axis) = false /\
                unpinned (Axis.options_max axis) (Axis.userMax axis) = false))
      as Hcase.
    { destruct Hidle as [Hn | [Hr | [Hlog | [Hp1 Hp2]]]].
      - left. rewrite Hex.
        destruct (existsb (isActive chart) (Axis.series axis)) eqn:E;
          [|reflexivity].
        exfalso. apply Hn. now apply existsb_isActive_In.
      - left. unfold range. rewrite Rltb_false by assumption.
        now rewrite andb_false_r.
      - left. rewrite Hlog. now rewrite andb_false_r.
      - right. split; now apply Hpin. }
    destruct Hcase as [Hgo | [Hp1 Hp2]].
    + rewrite writesNonNumber_idle by assumption.
      eexists. split; [reflexivity|].
      unfold pad. cbn [Axis.min Axis.max]. rewrite Hgo. now split.
    + rewrite writesNonNumber_pinned by assumption.
      eexists. split; [reflexivity|].
      unfold pad. cbn [Axis.min Axis.max]. rewrite Hp1, Hp2.
      rewrite !andb_false_r. now split.
Qed.

(** ** beforePadding on an X axis stays within the model *)

Section Totality.

Context {H : Utilities}.
Variable chart : Chart.

Lemma arrayMin_number d ds : exists r, ToNumber (arrayMin (d :: ds)) = Some r.
Proof.
  destruct (arrayMin_cell d ds) as [v [_ ->]]. destruct v; simpl; eauto.
Qed.

Lemma arrayMax_number d ds : exists r, ToNumber (arrayMax (d :: ds)) = Some r.
Proof.
  destruct (arrayMax_cell d ds) as [v [_ ->]]. destruct v; simpl; eauto.
Qed.

Lemma pick_number a r : exists r', ToNumber (pick a (JNum r)) = Some r'.
Proof. destruct a; simpl; eauto. Qed.

Lemma pick_absent a r :
  (forall r', a <> JNum r') -> pick a (JNum r) = JNum r.
Proof. intros Ha. destruct a as [| |r']; try reflexivity. now destruct (Ha r'). Qed.

Lemma findZ_total o zs zMin zMax :
  exists z, findZ o zs zMin zMax = Some z.
Proof.
  unfold findZ. destruct zs as [|d ds]; [eauto|].
  destruct (arrayMin_number d ds) as [lo ->].
  destruct (arrayMax_number d ds) as [hi ->]. simpl.
  destruct (pick_number (opt_zMin o)
              (Math.min zMin
                 (Math.max lo (if displayNegative o
                               then - Number.MAX_VALUE else zThreshold o))))
    as [a ->].
  destruct (pick_number (opt_zMax o) (Math.max zMax hi)) as [b ->].
  eauto.
Qed.

Lemma extreme_total l : pInt l <> None -> exists r, extreme chart l = Some r.
Proof.
  unfold extreme. destruct (pInt l); [eauto | congruence].
Qed.

Lemma collect_total ss :
  Forall (wellFormed chart) ss ->
  forall zMin zMax, exists r, collect chart true ss zMin zMax = Some r.
Proof.
  induction 1 as [|s ss Hs _ IH]; intros zMin zMax; simpl; [eauto|].
  rewrite andb_true_r. destruct (isActive chart s) eqn:Ha.
  - destruct (Hs Ha) as [Hlo [Hhi _]].
    destruct (extreme_total _ Hlo) as [lo ->].
    destruct (extreme_total _ Hhi) as [hi ->].
    destruct (findZ_total (options s) (zData s) zMin zMax) as [[a b] ->].
    destruct (IH a b) as [[rest z] ->]. eauto.
  - destruct (IH zMin zMax) as [[rest z] ->]. eauto.
Qed.

Variable axis : Axis.t.

Lemma fold_overflow_total rs l :
  (forall d i, In (d, i) l -> (i < List.length rs)%nat) ->
  forall q, exists p,
    fold_right
      (fun di acc =>
         overflow axis (option_map (fun l => radiusAt l (snd di)) (Some rs))
                  (fst di) acc)
      (Some q) l = Some p.
Proof.
  induction l as [|[d i] l IH]; intros Hin q; simpl; [eauto|].
  destruct (IH (fun d' i' Hi => Hin d' i' (or_intror Hi)) q) as [[a b] Hf].
  simpl in Hf. rewrite Hf.
  unfold overflow. destruct d as [x|]; [|eauto].
  destruct (Rleb (Axis.dataMin axis) x && Rleb x (Axis.dataMax axis)); [|eauto].
  assert (i < List.length rs)%nat as Hi by (apply (Hin (Some x)); now left).
  unfold radiusAt. destruct (nth_error rs i) as [r|] eqn:E.
  - destruct r; simpl; eauto.
  - apply nth_error_None in E. lia.
Qed.

Lemma overflows_total rs data q :
  (List.length data <= List.length rs)%nat ->
  exists p, overflows axis (Some rs) data (Some q) = Some p.
Proof.
  intros Hlen. apply fold_overflow_total. intros d i Hin.
  apply in_combine_r in Hin. apply in_seq in Hin. lia.
Qed.

Hypothesis onX : Axis.isXAxis axis = true.

Lemma measure_total zMin zMax ss :
  Forall (fun s => isActive chart s = true ->
                   (exists lo, ToNumber (minPxSize s) = Some lo) /\
                   (exists hi, ToNumber (maxPxSize s) = Some hi) /\
                   (List.length (xData s) <= List.length (zData s))%nat) ss ->
  forall q, exists r, measure chart axis zMin zMax ss (Some q) = Some r.
Proof.
  induction 1 as [|s ss Hs _ IH]; intros q; simpl; [eauto|].
  destruct (isActive chart s) eqn:Ha.
  - destruct (Hs eq_refl) as [[lo Hlo] [[hi Hhi] Hlen]].
    unfold padSeries, dataOf. rewrite onX, Hlo, Hhi.
    destruct (Rltb 0 (range axis)).
    + destruct (overflows_total
                  (radiiLoop (options s) (zMax - zMin) lo hi (zData s) zMin zMax)
                  (xData s) q) as [p Hp].
      { rewrite radiiLoop_length. exact Hlen. }
      cbn [radii getRadii set_radii xData]. rewrite Hp.
      destruct (IH p) as [[rest r] ->]. eauto.
    + destruct (IH q) as [[rest r] ->]. eauto.
  - destruct (IH q) as [[rest r] ->]. eauto.
Qed.

Lemma loops_total :
  Forall (wellFormed chart) (Axis.series axis) ->
  exists ss1 zMin zMax ss2 p,
    collect chart (Axis.isXAxis axis) (Axis.series axis)
            Number.MAX_VALUE (- Number.MAX_VALUE) = Some (ss1, (zMin, zMax)) /\
    measure chart axis zMin zMax ss1 (Some (0, Axis.len axis)) = Some (ss2, p).
Proof.
  intros Hwf. rewrite onX.
  destruct (collect_total _ Hwf Number.MAX_VALUE (- Number.MAX_VALUE))
    as [[ss1 [zMin zMax]] Hc].
  exists ss1, zMin, zMax. pose proof (collect_each chart _ _ _ _ _ _ Hc) as HF.
  destruct (measure_total zMin zMax ss1) with (q := (0, Axis.len axis))
    as [[ss2 p] Hm]; [|eauto].
  clear Hc. induction HF as [|s s1 l l1 Hs _ IH]; [constructor|].
  inversion Hwf as [|? ? Hw Hwf']; subst.
  constructor; [|now apply IH].
  intros Ha1. rewrite (collected_isActive chart _ _ _ Hs) in Ha1.
  unfold collected in Hs. rewrite Ha1 in Hs. simpl in Hs.
  destruct Hs as [lo [hi [_ [_ ->]]]]. simpl.
  destruct (Hw Ha1) as [_ [_ Hlen]]. eauto.
Qed.

End Totality.

(** Two bubbles of radius 10 at the ends of an axis of 100 pixels over
    [0, 10], with [axis.options.min] set to 0: the translate factor goes
    from 10 to 8, the minimum stays at 0 and the maximum goes to 45/4. *)
Lemma beforePadding_pads_witness :
  exists axis',
    beforePadding plot200x100 axisPinnedMin = Some axis' /\
    Axis.min axis' = 0 /\ Axis.max axis' = 45 / 4.
Proof.
  edestruct (beforePadding_pads plot200x100 axisPinnedMin)
    with (zMin := 5) (zMax := 5) (pxMin := -10) (pxMax := 110)
    as [_ [_ [Hgo _]]].
  - unfold axisPinnedMin, fixed20, plot200x100. js_eval. reflexivity.
  - unfold axisPinnedMin, fixed20, plot200x100. js_eval.
    ceil_is 20%Z. js_eval. do 2 f_equal. f_equal; lra.
  - destruct Hgo as [axis' [E [_ [Hlo [Hhi _]]]]].
    + eexists. split; [left; reflexivity | reflexivity].
    + cbn [Axis.max Axis.min axisPinnedMin xAxis]. lra.
    + reflexivity.
    + cbn [Axis.len axisPinnedMin xAxis]. lra.
    + cbn [Axis.len Axis.max Axis.min axisPinnedMin xAxis]. lra.
    + exists axis'. split; [exact E|]. split.
      * rewrite Hlo; [reflexivity|]. exists 0. left. reflexivity.
      * rewrite Hhi; [|split; intros r; discriminate].
        cbn [Axis.len Axis.max Axis.min axisPinnedMin xAxis]. field.
Defined.

(** A string tests as a percentage exactly when its last character is the
    percent sign. *)
Lemma endsWithPercent_iff (s : string) :
  endsWithPercent s = true <-> exists p, s = String.append p "%".
Proof.
  induction s as [|c s IH].
  - split; [discriminate|]. intros [[|d p] E]; discriminate.
  - destruct s as [|c' s'].
    + simpl. split.
      * intros E. apply Ascii.eqb_eq in E. subst c. now exists EmptyString.
      * intros [[|d [|d' p]] E]; simpl in E.
        -- injection E as ->. reflexivity.
        -- discriminate.
        -- discriminate.
    + change (endsWithPercent (String c (String c' s')))
        with (endsWithPercent (String c' s')).
      rewrite IH. split.
      * intros [p ->]. now exists (String c p).
      * intros [[|d p] E]; simpl in E; [discriminate|].
        injection E as _ ->. now exists p.
Qed.

(** C9.  On the X axis, where the sizes are collected, every contributing
    series whose sizes read as numbers [n] and [m] leaves the collection
    with [minPxSize] the resolved minimum and [maxPxSize] the larger of the
    resolved maximum and the resolved minimum; a size resolves to
    [min(plotWidth, plotHeight) * n / 100] when it is a string ending in
    the percent sign, and to [n] otherwise.  The sizes are still these at
    the end of a run. *)
Theorem sizes_resolved {H : Utilities} (chart : Chart) (axis : Axis.t) :
  Axis.isXAxis axis = true ->
  Forall (wellFormed chart) (Axis.series axis) ->
  let smallest := Math.min (plotWidth chart) (plotHeight chart) in
  let percent (l : length_opt) := exists p, l = LStr (String.append p "%") in
  let resolved (l : length_opt) (n px : R) :=
    (percent l -> px = smallest * n / 100) /\ (~ percent l -> px = n) in
  let sizes (s s' : Series) :=
    isActive chart s = true ->
    exists n m lo hi,
      pInt (minSize (options s)) = Some n /\
      pInt (maxSize (options s)) = Some m /\
      resolved (minSize (options s)) n lo /\
      resolved (maxSize (options s)) m hi /\
      minPxSize s' = JNum lo /\
      maxPxSize s' = JNum (Math.max hi lo) in
  exists ss1 z,
    collect chart true (Axis.series axis)
            Number.MAX_VALUE (- Number.MAX_VALUE) = Some (ss1, z) /\
    Forall2 sizes (Axis.series axis) ss1 /\
    forall axis',
      beforePadding chart axis = Some axis' ->
      Forall2 sizes (Axis.series axis) (Axis.series axis').
Proof.
  intros onX Hwf smallest percent resolved sizes.
  assert (forall l n px,
             extreme chart l = Some px -> pInt l = Some n -> resolved l n px)
    as Hres.
  { intros l n px E En. unfold extreme in E. rewrite En in E.
    injection E as <-. unfold isPercent. split.
    - intros [p ->]. now rewrite (proj2 (endsWithPercent_iff _)) by now exists p.
    - intros Hn. destruct l as [r|str]; [reflexivity|].
      destruct (endsWithPercent str) eqn:E; [|reflexivity].
      exfalso. apply Hn. apply endsWithPercent_iff in E.
      destruct E as [p ->]. now exists p. }
  assert (forall s s1, collected chart true s s1 -> sizes s s1) as Hsz.
  { intros s s1 Hs Ha. unfold collected in Hs. rewrite Ha in Hs. simpl in Hs.
    destruct Hs as [lo [hi [Elo [Ehi ->]]]].
    destruct (pInt (minSize (options s))) as [n|] eqn:En;
      [|unfold extreme in Elo; rewrite En in Elo; discriminate].
    destruct (pInt (maxSize (options s))) as [m|] eqn:Em;
      [|unfold extreme in Ehi; rewrite Em in Ehi; discriminate].
    exists n, m, lo, hi. repeat split; try (now apply Hres);
      try (now apply (Hres _ _ _ Elo En)); try (now apply (Hres _ _ _ Ehi Em)). }
  destruct (loops_total chart axis onX Hwf)
    as [ss1 [zMin [zMax [ss2 [p [Hc Hm]]]]]].
  rewrite onX in Hc. exists ss1, (zMin, zMax).
  pose proof (collect_each chart _ _ _ _ _ _ Hc) as HF1.
  split; [exact Hc|]. split.
  - clear Hc Hm Hwf. induction HF1; constructor; auto.
  - intros axis' E. destruct p as [pxMin pxMax].
    rewrite <- onX in Hc.
    rewrite (beforePadding_closing chart axis _ _ _ _ _ _ Hc Hm) in E.
    destruct (writesNonNumber chart axis ss2 pxMin pxMax); [discriminate|].
    injection E as <-. cbn [pad Axis.series].
    destruct (measure_each chart axis _ _ _ _ _ _ Hm) as [HF2 _].
    clear Hc Hm Hwf. revert ss2 HF2.
    induction HF1 as [|s s1 l l1 Hs _ IH]; intros ss2 HF2;
      inversion HF2 as [|? s2 ? l2 Hs2 HF2']; subst; constructor.
    + intros Ha. destruct (Hsz _ _ Hs Ha)
        as [n [m [lo [hi [En [Em [Rlo [Rhi [Slo Shi]]]]]]]]].
      exists n, m, lo, hi.
      unfold radiiSet in Hs2.
      rewrite (collected_isActive chart _ _ _ Hs), Ha, onX in Hs2.
      simpl in Hs2. destruct Hs2 as [lo' [hi' [_ [_ ->]]]].
      repeat split; try apply Rlo; try apply Rhi; assumption.
    + now apply IH.
Qed.

(** [minSize: "50%"] and [maxSize: "10%"] on a plot area of 200 x 100
    resolve to 50 and 50; [minSize: "10%"] and [maxSize: "50%"] on a plot
    area of 300 x 60 resolve to 6 and 30. *)
Lemma sizes_resolved_witness :
  (exists axis' s',
     beforePadding plot200x100 axisConflict = Some axis' /\
     Axis.series axis' = [s'] /\
     minPxSize s' = JNum 50 /\ maxPxSize s' = JNum 50) /\
  (exists axis' s',
     beforePadding plot300x60 axisPercent = Some axis' /\
     Axis.series axis' = [s'] /\
     minPxSize s' = JNum 6 /\ maxPxSize s' = JNum 30).
Proof.
  split.
  - destruct (sizes_resolved plot200x100 axisConflict) as [ss1 [z [_ [_ Hrun]]]].
    + reflexivity.
    + repeat constructor; cbn; discriminate.
    + assert (exists axis', beforePadding plot200x100 axisConflict = Some axis')
        as [axis' E].
      { eexists. unfold axisConflict, conflicting, plot200x100. js_eval.
        ceil_is 50%Z. js_eval. reflexivity. }
      exists axis'. specialize (Hrun axis' E).
      cbn [axisConflict xAxis Axis.series] in Hrun.
      inversion Hrun as [|s s' l l' Hs Hl]; subst. inversion Hl; subst.
      exists s'. split; [exact E|]. split; [reflexivity|].
      destruct (Hs eq_refl)
        as [n [m [lo [hi [En [Em [[Hlo _] [[Hhi _] [Slo Shi]]]]]]]]].
      cbv in En, Em. injection En as <-. injection Em as <-.
      rewrite Slo, Shi, Hlo, Hhi;
        [|now exists "10"%string|now exists "50"%string].
      cbv [plotWidth plotHeight plot200x100 Math.min Math.max].
      rdecide. split; f_equal; lra.
  - destruct (sizes_resolved plot300x60 axisPercent) as [ss1 [z [_ [_ Hrun]]]].
    + reflexivity.
    + repeat constructor; cbn; discriminate.
    + assert (exists axis', beforePadding plot300x60 axisPercent = Some axis')
        as [axis' E].
      { eexists. unfold axisPercent, plot300x60. js_eval.
        ceil_is 18%Z. js_eval. reflexivity. }
      exists axis'. specialize (Hrun axis' E).
      cbn [axisPercent xAxis Axis.series] in Hrun.
      inversion Hrun as [|s s' l l' Hs Hl]; subst. inversion Hl; subst.
      exists s'. split; [exact E|]. split; [reflexivity|].
      destruct (Hs eq_refl)
        as [n [m [lo [hi [En [Em [[Hlo _] [[Hhi _] [Slo Shi]]]]]]]]].
      cbv in En, Em. injection En as <-. injection Em as <-.
      rewrite Slo, Shi, Hlo, Hhi;
        [|now exists "50"%string|now exists "10"%string].
      cbv [plotWidth plotHeight plot300x60 Math.min Math.max].
      rdecide. split; f_equal; lra.
Defined.

(** ** Values below the range: radius and rendering *)

Lemma translatePoint_below (s : Series) (rs : list nullable) (i : nat)
      (lo plotX plotY : R) :
  radii s = Some rs ->
  minPxSize s = JNum lo ->
  nth_error rs i = Some (Some (lo / 2 - 1)) ->
  translatePoint s i plotX plotY = Cleared.
Proof.
  intros Hr Hm Hi. unfold translatePoint, radiusAt.
  rewrite Hr, Hi, Hm. simpl. now rewrite Rleb_false by lra.
Qed.

(** The series minimum enters [Math.min] clamped from below. *)
Lemma findZ_clamped {H : Utilities} (o : SeriesOptions) (zs : list nullable)
      (zMin zMax a b : R) :
  displayNegative o = false ->
  (forall r, opt_zMin o <> JNum r) ->
  findZ o zs zMin zMax = Some (a, b) ->
  zs = [] /\ a = zMin \/
  exists m, zThreshold o <= m /\ a = Math.min zMin m.
Proof.
  intros Hd Hz. unfold findZ. destruct zs as [|d ds].
  - intros [= <- _]. now left.
  - destruct (arrayMin_number d ds) as [lo ->]. rewrite Hd. simpl.
    rewrite pick_absent by assumption. simpl.
    destruct (ToNumber (pick (opt_zMax o) _)); [|discriminate].
    intros [= <- _]. right.
    exists (Math.max lo (zThreshold o)). split; [apply Rmax_r | reflexivity].
Qed.

(** C5, the claim as stated fails: one series with [displayNegative: false]
    and z values -5 and 5 around threshold 0.  The minimum is clamped to 0,
    the point with z = -5 receives the radius 8/2 - 1 = 3, and [translate]
    leaves it without a shape. *)
Lemma negative_point_is_not_rendered :
  exists axis' s',
    beforePadding plot200x100 axisNegative = Some axis' /\
    Axis.series axis' = [s'] /\
    radii s' = Some [Some 3; Some 10] /\
    translate s' [(20, 50); (80, 50)]
    = [Cleared;
       Marker 10 (2 * 10) (2 * 10)
              {| box_x := 80 - 10; box_y := 50 - 10;
                 box_width := 2 * 10; box_height := 2 * 10 |}].
Proof.
  assert (beforePadding plot200x100 axisNegative
          = Some (pad plot200x100 axisNegative
                      [getRadii (set_pxSizes
                                   (bubble noNegative [Some 2; Some 8]
                                           [Some 0; Some 0] [Some (-5); Some 5])
                                   8 20) 0 5 8 20]
                      0 100)) as E.
  { unfold axisNegative, noNegative, plot200x100. js_eval.
    ceil_is 20%Z. js_eval. reflexivity. }
  eexists _, _. split; [exact E|]. split; [reflexivity|].
  split.
  - unfold noNegative. js_eval. ceil_is 20%Z. do 3 f_equal; [f_equal|]; f_equal; lra.
  - unfold noNegative. js_eval. ceil_is 20%Z. js_eval.
    replace (20 / 2) with 10 by lra. reflexivity.
Qed.

(** C5, amended.  A series with [displayNegative: false] and no [zMin]
    option takes the running [zMin] to
    [min(zMin, max(arrayMin(zData), zThreshold))]: what it contributes is
    its minimum clamped to at least [zThreshold].  For a lone contributing
    series that is not sized by absolute value, the [zMin] handed to
    [getRadii] is that clamped minimum, so every point with z below
    [zThreshold] receives the radius [minPxSize / 2 - 1] and [translate]
    leaves it without a shape. *)
Theorem displayNegative_false_hides_low_points {H : Utilities}
        (chart : Chart) (axis : Axis.t) (s : Series) :
  Axis.isXAxis axis = true ->
  Axis.series axis = [s] ->
  isActive chart s = true ->
  wellFormed chart s ->
  displayNegative (options s) = false ->
  (forall r, opt_zMin (options s) <> JNum r) ->
  sizeByAbsoluteValue (options s) = false ->
  zThreshold (options s) <= Number.MAX_VALUE ->
  (zData s <> [] ->
   exists m,
     ToNumber (arrayMin (zData s)) = Some m /\
     forall zMin0 zMax0, exists zMax1,
       findZ (options s) (zData s) zMin0 zMax0
       = Some (Math.min zMin0 (Math.max m (zThreshold (options s))), zMax1)) /\
  exists s1 s' zMin zMax pxMin pxMax rs lo,
    collect chart true [s] Number.MAX_VALUE (- Number.MAX_VALUE)
    = Some ([s1], (zMin, zMax)) /\
    (zData s <> [] ->
     exists m,
       ToNumber (arrayMin (zData s)) = Some m /\
       zMin = Math.min Number.MAX_VALUE (Math.max m (zThreshold (options s)))) /\
    zThreshold (options s) <= zMin /\
    measure chart axis zMin zMax [s1] (Some (0, Axis.len axis))
    = Some ([s'], (pxMin, pxMax)) /\
    (forall axis',
        beforePadding chart axis = Some axis' -> Axis.series axis' = [s']) /\
    radii s' = Some rs /\
    extreme chart (minSize (options s)) = Some lo /\
    minPxSize s' = JNum lo /\
    forall i z plotX plotY,
      nth_error (zData s) i = Some (Some z) ->
      z < zThreshold (options s) ->
      nth_error rs i = Some (Some (lo / 2 - 1)) /\
      translatePoint s' i plotX plotY = Cleared.
Proof.
  intros onX Hss Ha Hwf Hd Hz Hplain HT.
  assert (zData s <> [] ->
          exists m,
            ToNumber (arrayMin (zData s)) = Some m /\
            forall zMin0 zMax0, exists zMax1,
              findZ (options s) (zData s) zMin0 zMax0
              = Some (Math.min zMin0 (Math.max m (zThreshold (options s))),
                      zMax1)) as Hfind.
  { intros Hne. destruct (zData s) as [|d ds]; [congruence|].
    destruct (arrayMin_number d ds) as [m Em]. exists m. split; [exact Em|].
    intros zMin0 zMax0. unfold findZ. rewrite Em, Hd.
    destruct (arrayMax_number d ds) as [hi ->]. simpl.
    rewrite pick_absent by assumption. simpl.
    destruct (pick_number (opt_zMax (options s)) (Math.max zMax0 hi)) as [b ->].
    eauto. }
  split; [exact Hfind|].
  destruct (loops_total chart axis onX) as [ss1 [zMin [zMax [ss2 [[a b] [Hc Hm]]]]]].
  { rewrite Hss. constructor; [assumption | constructor]. }
  rewrite onX, Hss in Hc.
  pose proof (collect_each chart _ _ _ _ _ _ Hc) as HF1.
  destruct (measure_each chart axis _ _ _ _ _ _ Hm) as [HF2 _].
  inversion HF1 as [|? s1 ? l1 Hs1 Hl1]; subst.
  inversion Hl1; subst.
  inversion HF2 as [|? s2 ? l2 Hs2 Hl2]; subst.
  inversion Hl2; subst.
  unfold collected in Hs1. rewrite Ha in Hs1. simpl in Hs1.
  destruct Hs1 as [lo [hi [Elo [Ehi ->]]]].
  unfold radiiSet in Hs2. rewrite isActive_set_pxSizes, Ha, onX in Hs2.
  simpl in Hs2. destruct Hs2 as [lo' [hi' [[= <-] [[= <-] ->]]]].
  assert (findZ (options s) (zData s) Number.MAX_VALUE (- Number.MAX_VALUE)
          = Some (zMin, zMax)) as Ef.
  { pose proof Hc as Hc'. simpl in Hc'. rewrite Ha, Elo, Ehi in Hc'.
    simpl in Hc'.
    destruct (findZ (options s) (zData s) _ _) as [[a' b']|]; [|discriminate].
    now injection Hc' as <- <-. }
  assert (zData s <> [] ->
          exists m,
            ToNumber (arrayMin (zData s)) = Some m /\
            zMin = Math.min Number.MAX_VALUE
                            (Math.max m (zThreshold (options s)))) as HzEq.
  { intros Hne. destruct (Hfind Hne) as [m [Em Hf]]. exists m.
    split; [exact Em|].
    destruct (Hf Number.MAX_VALUE (- Number.MAX_VALUE)) as [zMax1 Hf1].
    rewrite Hf1 in Ef. now injection Ef as <- _. }
  assert (zThreshold (options s) <= zMin) as HzMin.
  { destruct (findZ_clamped _ _ _ _ _ _ Hd Hz Ef) as [[_ ->] | [m [Hm' ->]]].
    - assumption.
    - unfold Math.min. apply Rmin_glb; assumption. }
  eexists _, _, zMin, zMax, a, b, _, lo.
  split; [exact Hc|]. split; [exact HzEq|]. split; [assumption|].
  split; [exact Hm|]. split.
  { intros axis' E. rewrite <- onX, <- Hss in Hc.
    rewrite (beforePadding_closing chart axis _ _ _ _ _ _ Hc Hm) in E.
    destruct (writesNonNumber chart axis _ a b); [discriminate|].
    now injection E as <-. }
  split; [reflexivity|]. split; [exact Elo|].
  split; [reflexivity|].
  intros i z plotX plotY Hi Hlt.
  assert (nth_error
            (radiiLoop (options s) (zMax - zMin) lo (Math.max hi lo)
                       (zData s) zMin zMax) i
          = Some (Some (lo / 2 - 1))) as Hr.
  { cbn [options set_pxSizes].
    rewrite (radiiLoop_plain_nth _ _ _ _ Hplain _ _ _ _ _ Hi).
    unfold radiusOf. now rewrite Rltb_true by lra. }
  split; [exact Hr|].
  eapply translatePoint_below; [reflexivity | reflexivity | exact Hr].
Qed.

(** The series with z values -5 and 5 around threshold 0: the collection
    ends with [zMin = 0], the radius of the first point is 8/2 - 1 and the
    point is left without a shape. *)
Lemma displayNegative_false_hides_low_points_witness :
  exists axis' s1 s' zMax rs,
    collect plot200x100 true
            [bubble noNegative [Some 2; Some 8] [Some 0; Some 0]
                    [Some (-5); Some 5]]
            Number.MAX_VALUE (- Number.MAX_VALUE)
    = Some ([s1], (0, zMax)) /\
    beforePadding plot200x100 axisNegative = Some axis' /\
    Axis.series axis' = [s'] /\
    radii s' = Some rs /\
    nth_error rs 0 = Some (Some (8 / 2 - 1)) /\
    translatePoint s' 0 20 50 = Cleared.
Proof.
  destruct (displayNegative_false_hides_low_points
              plot200x100 axisNegative
              (bubble noNegative [Some 2; Some 8] [Some 0; Some 0]
                      [Some (-5); Some 5]))
    as [_ [s1 [s' [zMin [zMax [pxMin [pxMax [rs [lo
         [Hc [Hz [_ [_ [Hrun [Hr [Elo [_ Hlow]]]]]]]]]]]]]]]]].
  - reflexivity.
  - reflexivity.
  - reflexivity.
  - intros _. cbn. repeat split; try discriminate. lia.
  - reflexivity.
  - intros r. discriminate.
  - reflexivity.
  - cbn. pose proof MAX_VALUE_big. lra.
  - assert (exists axis', beforePadding plot200x100 axisNegative = Some axis')
      as [axis' E].
    { eexists. unfold axisNegative, noNegative, plot200x100. js_eval.
      ceil_is 20%Z. js_eval. reflexivity. }
    assert (zMin = 0) as ->.
    { destruct Hz as [m [Em ->]]; [discriminate|].
      pose proof MAX_VALUE_big.
      unfold noNegative in Em. revert Em. js_eval. intros [= <-].
      unfold noNegative. js_eval. reflexivity. }
    exists axis', s1, s', zMax, rs. split; [exact Hc|]. split; [exact E|].
    split; [exact (Hrun axis' E)|]. split; [exact Hr|].
    assert (lo = 8) as -> by (cbv in Elo; now injection Elo).
    apply (Hlow 0%nat (-5) 20 50); [reflexivity | cbn; lra].
Defined.

(** Under the absolute-value remap no value lies below the [zMin] of the
    loop, which is 0. *)
Lemma remap_abs_not_below (o : SeriesOptions) (z zMin zMax : R)
      (value : nullable) (zMin1 zMax1 : R) :
  sizeByAbsoluteValue o = true ->
  remap o (Some z) zMin zMax = (value, zMin1, zMax1) ->
  exists v, value = Some v /\ zMin1 <= v.
Proof.
  unfold remap. intros ->. intros [= <- <- _].
  eexists. split; [reflexivity | apply Rabs_pos].
Qed.

(** C7, the claim as stated fails: with [zMin: 5] and [zMax: 10] set on the
    series, the point with z = 1 receives the radius 8/2 - 1 = 3 and
    [translate] leaves it without a shape, next to the point with z = 5
    drawn at the minimum radius 4. *)
Lemma below_range_point_is_not_drawn :
  exists axis' s',
    beforePadding plot200x100 axisRanged = Some axis' /\
    Axis.series axis' = [s'] /\
    radii s' = Some [Some 3; Some 4] /\
    translate s' [(20, 50); (80, 50)]
    = [Cleared;
       Marker 4 (2 * 4) (2 * 4)
              {| box_x := 80 - 4; box_y := 50 - 4;
                 box_width := 2 * 4; box_height := 2 * 4 |}].
Proof.
  assert (beforePadding plot200x100 axisRanged
          = Some (pad plot200x100 axisRanged
                      [getRadii (set_pxSizes
                                   (bubble ranged [Some 2; Some 8]
                                           [Some 0; Some 0] [Some 1; Some 5])
                                   8 20) 5 10 8 20]
                      0 100)) as E.
  { unfold axisRanged, ranged, plot200x100. js_eval.
    ceil_is 8%Z. js_eval. reflexivity. }
  eexists _, _. split; [exact E|]. split; [reflexivity|].
  split.
  - unfold ranged. js_eval. ceil_is 8%Z.
    do 3 f_equal; [f_equal|]; f_equal; lra.
  - unfold ranged. js_eval. ceil_is 8%Z. js_eval.
    replace (8 / 2) with 4 by lra. reflexivity.
Qed.

(** C7, amended: a value below the [zMin] of the loop receives the radius
    [minPx / 2 - 1], which is below the radius [ceil(minPx) / 2] of the
    smallest in-range bubble; called as [beforePadding] calls it, with
    [minPx] the series' [minPxSize], [translate] then leaves the point
    without a shape ([shapeArgs], [plotY] and [dlBox] are cleared). *)
Theorem below_range_radius (s : Series) (zMin zMax lo hi : R)
        (i : nat) (z plotX plotY : R) :
  sizeByAbsoluteValue (options s) = false ->
  minPxSize s = JNum lo ->
  nth_error (zData s) i = Some (Some z) ->
  z < zMin ->
  exists rs,
    radii (getRadii s zMin zMax lo hi) = Some rs /\
    nth_error rs i = Some (Some (lo / 2 - 1)) /\
    lo / 2 - 1 < Math.ceil lo / 2 /\
    translatePoint (getRadii s zMin zMax lo hi) i plotX plotY = Cleared.
Proof.
  intros Hplain Hlo Hi Hlt.
  assert (nth_error
            (radiiLoop (options s) (zMax - zMin) lo hi (zData s) zMin zMax) i
          = Some (Some (lo / 2 - 1))) as Hr.
  { rewrite (radiiLoop_plain_nth _ _ _ _ Hplain _ _ _ _ _ Hi).
    unfold radiusOf. now rewrite Rltb_true. }
  eexists. split; [reflexivity|]. split; [exact Hr|]. split.
  - pose proof (ceil_ge lo). lra.
  - eapply translatePoint_below; [reflexivity | exact Hlo | exact Hr].
Qed.

(** The value 1 against the range [5, 10] with [minPxSize] 8. *)
Lemma below_range_radius_witness :
  exists rs,
    radii (getRadii (set_pxSizes
                       (bubble ranged [Some 2; Some 8] [Some 0; Some 0]
                               [Some 1; Some 5]) 8 20) 5 10 8 20) = Some rs /\
    nth_error rs 0 = Some (Some (8 / 2 - 1)) /\
    8 / 2 - 1 < Math.ceil 8 / 2 /\
    translatePoint
      (getRadii (set_pxSizes
                   (bubble ranged [Some 2; Some 8] [Some 0; Some 0]
                           [Some 1; Some 5]) 8 20) 5 10 8 20)
      0 20 50 = Cleared.
Proof.
  apply (below_range_radius
           (set_pxSizes (bubble ranged [Some 2; Some 8] [Some 0; Some 0]
                                [Some 1; Some 5]) 8 20)
           5 10 8 20 0 1 20 50); try reflexivity. lra.
Defined.

(** ** Series that bring no z values *)

Section Skipping.

Context {H : Utilities}.
Variable chart : Chart.
Variable s : Series.
Hypothesis noZ : zData s = [].
Hypothesis sizes : wellFormed chart s.

Lemma collect_skips_empty isX l1 l2 :
  forall zMin zMax,
    collect chart isX (l1 ++ s :: l2) zMin zMax
    = insertedIn (List.length l1) (collectedEmpty chart s isX)
                 (collect chart isX (l1 ++ l2) zMin zMax).
Proof.
  induction l1 as [|s0 l1 IH]; intros zMin zMax.
  - cbn [app List.length collect insertedIn]. unfold collectedEmpty.
    destruct (isActive chart s && isX) eqn:Ha.
    + apply andb_prop in Ha. destruct Ha as [Ha _].
      destruct (sizes Ha) as [Hlo [Hhi _]].
      destruct (extreme_total chart _ Hlo) as [lo ->].
      destruct (extreme_total chart _ Hhi) as [hi ->].
      rewrite noZ. cbn [findZ].
      destruct (collect chart isX l2 zMin zMax) as [[l' z]|]; reflexivity.
    + destruct (collect chart isX l2 zMin zMax) as [[l' z]|]; reflexivity.
  - cbn [app List.length collect].
    destruct (isActive chart s0 && isX).
    + destruct (extreme chart (minSize (options s0))); [|reflexivity].
      destruct (extreme chart (maxSize (options s0))); [|reflexivity].
      destruct (findZ (options s0) (zData s0) zMin zMax) as [[a b]|];
        [|reflexivity].
      rewrite IH.
      destruct (collect chart isX (l1 ++ l2) a b) as [[l' z]|]; reflexivity.
    + rewrite IH.
      destruct (collect chart isX (l1 ++ l2) zMin zMax) as [[l' z]|];
        reflexivity.
Qed.

Variable axis : Axis.t.
Hypothesis noX : xData s = [].
Hypothesis noY : yData s = [].

Lemma collectedEmpty_isActive isX :
  isActive chart (collectedEmpty chart s isX) = isActive chart s.
Proof.
  unfold collectedEmpty. destruct (isActive chart s && isX); [|reflexivity].
  destruct (extreme chart (minSize (options s))); [|reflexivity].
  destruct (extreme chart (maxSize (options s))); reflexivity.
Qed.

Lemma measuredEmpty_isActive zMin zMax :
  isActive chart (measuredEmpty chart s axis zMin zMax) = isActive chart s.
Proof.
  unfold measuredEmpty.
  destruct (isActive chart s && Axis.isXAxis axis);
    [|apply collectedEmpty_isActive].
  destruct (ToNumber (minPxSize _)); [|apply collectedEmpty_isActive].
  destruct (ToNumber (maxPxSize _)); [|apply collectedEmpty_isActive].
  rewrite isActive_getRadii. apply collectedEmpty_isActive.
Qed.

Lemma padSeries_empty zMin zMax px :
  isActive chart s = true ->
  padSeries axis zMin zMax (collectedEmpty chart s (Axis.isXAxis axis)) px
  = Some (measuredEmpty chart s axis zMin zMax, px).
Proof.
  intros Ha. unfold padSeries, measuredEmpty, dataOf, collectedEmpty.
  rewrite Ha. destruct (Axis.isXAxis axis); simpl.
  - destruct (sizes Ha) as [Hlo [Hhi _]].
    destruct (extreme_total chart _ Hlo) as [lo ->].
    destruct (extreme_total chart _ Hhi) as [hi ->].
    cbn. rewrite noX. cbn. now destruct (Rltb 0 (range axis)).
  - rewrite noY. cbn. now destruct (Rltb 0 (range axis)).
Qed.

Lemma measure_skips_empty zMin zMax l1 l2 :
  forall px,
    measure chart axis zMin zMax
            (insertAt (List.length l1) (collectedEmpty chart s (Axis.isXAxis axis))
                      (l1 ++ l2)) px
    = insertedIn (List.length l1) (measuredEmpty chart s axis zMin zMax)
                 (measure chart axis zMin zMax (l1 ++ l2) px).
Proof.
  unfold insertAt. rewrite firstn_app, skipn_app, firstn_all, skipn_all.
  rewrite Nat.sub_diag. cbn [firstn skipn]. rewrite app_nil_r.
  induction l1 as [|s0 l1 IH]; intros px.
  - cbn [app List.length measure insertedIn].
    rewrite collectedEmpty_isActive.
    destruct (isActive chart s) eqn:Ha.
    + rewrite (padSeries_empty _ _ _ Ha).
      destruct (measure chart axis zMin zMax l2 px) as [[l' p]|]; reflexivity.
    + unfold measuredEmpty. rewrite Ha. cbn.
      destruct (measure chart axis zMin zMax l2 px) as [[l' p]|]; reflexivity.
  - cbn [app List.length measure].
    destruct (isActive chart s0).
    + destruct (padSeries axis zMin zMax s0 px) as [[s1 px1]|]; [|reflexivity].
      rewrite IH.
      destruct (measure chart axis zMin zMax (l1 ++ l2) px1) as [[l' p]|];
        reflexivity.
    + rewrite IH.
      destruct (measure chart axis zMin zMax (l1 ++ l2) px) as [[l' p]|];
        reflexivity.
Qed.

End Skipping.

Lemma measure_inactive {H : Utilities} chart axis zMin zMax l :
  existsb (isActive chart) l = false ->
  forall q, measure chart axis zMin zMax l (Some q) = Some (l, q).
Proof.
  induction l as [|s l IH]; intros Hn q; simpl; [reflexivity|].
  simpl in Hn. apply orb_false_elim in Hn. destruct Hn as [Ha Hl].
  rewrite Ha, (IH Hl). reflexivity.
Qed.

Lemma existsb_insertAt chart n s l :
  (n <= List.length l)%nat ->
  existsb (isActive chart) (insertAt n s l)
  = isActive chart s || existsb (isActive chart) l.
Proof.
  intros Hn. unfold insertAt. rewrite existsb_app. simpl.
  rewrite <- (firstn_skipn n l) at 3. rewrite existsb_app.
  destruct (existsb (isActive chart) (firstn n l)), (isActive chart s);
    reflexivity.
Qed.

(** On an array of [null]s either helper can only answer [null], which
    [Math.max] and [Math.min] read as 0. *)
Lemma findZ_all_null {H : Utilities} (o : SeriesOptions) (zs : list nullable)
      (zMin zMax : R) :
  zs <> [] ->
  Forall (fun z => z = None) zs ->
  (forall r, opt_zMin o <> JNum r) ->
  (forall r, opt_zMax o <> JNum r) ->
  findZ o zs zMin zMax
  = Some (Math.min zMin
            (Math.max 0 (if displayNegative o
                         then - Number.MAX_VALUE else zThreshold o)),
          Math.max zMax 0).
Proof.
  intros Hne Hall Hlo Hhi. destruct zs as [|d ds]; [congruence|].
  unfold findZ.
  destruct (arrayMin_cell d ds) as [v [Hv ->]].
  destruct (arrayMax_cell d ds) as [w [Hw ->]].
  rewrite Forall_forall in Hall.
  rewrite (Hall v Hv), (Hall w Hw). simpl.
  rewrite !pick_absent by assumption. reflexivity.
Qed.

(** C10, the code at the failing input: next to a series with z values 5
    and 10, a series whose two z values are [null] takes the global minimum
    from 5 to 0.  The guard on [zData.length] lets the series through, and
    the [null] that [arrayMin] and [arrayMax] answer is read as 0 by
    [Math.max] and [Math.min], where [getRadii] treats a [null] value as
    no value. *)
Lemma all_null_series_moves_zMin :
  exists ss ss',
    collect plot200x100 true [fixed20z [Some 5; Some 10]; fixed20z [None; None]]
            Number.MAX_VALUE (- Number.MAX_VALUE)
    = Some (ss, (0, 10)) /\
    collect plot200x100 true [fixed20z [Some 5; Some 10]]
            Number.MAX_VALUE (- Number.MAX_VALUE)
    = Some (ss', (5, 10)).
Proof.
  eexists _, _. split.
  - unfold fixed20z, fixed20, plot200x100. js_eval. reflexivity.
  - unfold fixed20z, fixed20, plot200x100. js_eval. reflexivity.
Qed.

(** The run itself completes on these two series: the radii of the second
    are [null], which the padding loop counts as 0. *)
Lemma all_null_series_run_completes :
  exists a,
    beforePadding plot200x100
      (withSeries axisOnePoint
                  [fixed20z [Some 5; Some 10]; fixed20z [None; None]])
    = Some a.
Proof.
  eexists. unfold axisOnePoint, fixed20z, fixed20, plot200x100, withSeries.
  js_eval. repeat ceil_is 10%Z. repeat ceil_is 15%Z. repeat ceil_is 20%Z.
  js_eval. reflexivity.
Qed.

(** The same holds whatever the helpers are: the series of [null]s takes
    the minimum to 0, which no helper finds among the cells 5 and 10. *)
Lemma all_null_series_moves_zMin_for_any_helper {H : Utilities} :
  exists ss ss' zMax zMin' zMax',
    collect plot200x100 true [fixed20z [Some 5; Some 10]; fixed20z [None; None]]
            Number.MAX_VALUE (- Number.MAX_VALUE)
    = Some (ss, (0, zMax)) /\
    collect plot200x100 true [fixed20z [Some 5; Some 10]]
            Number.MAX_VALUE (- Number.MAX_VALUE)
    = Some (ss', (zMin', zMax')) /\
    5 <= zMin'.
Proof.
  pose proof MAX_VALUE_big as HM.
  assert (exists a b,
             findZ fixed20 [Some 5; Some 10] Number.MAX_VALUE (- Number.MAX_VALUE)
             = Some (a, b) /\ 5 <= a) as [a [b [Ef Ha]]].
  { unfold findZ.
    destruct (arrayMin_cell (Some 5) [Some 10]) as [v [Hv ->]].
    destruct (arrayMax_cell (Some 5) [Some 10]) as [w [Hw ->]].
    destruct Hv as [<-|[<-|[]]]; destruct Hw as [<-|[<-|[]]];
      cbn [of_null ToNumber option_map orNaN pick fixed20 sizing opt_zMin
           opt_zMax displayNegative];
      eexists _, _; (split; [reflexivity|]); unfold Math.min, Math.max;
      rdecide; lra. }
  assert (findZ fixed20 [None; None] a b
          = Some (Math.min a (Math.max 0 (- Number.MAX_VALUE)), Math.max b 0))
    as En.
  { apply (findZ_all_null fixed20 [None; None] a b);
      [discriminate | repeat constructor | intros r; discriminate
       | intros r; discriminate]. }
  assert (extreme plot200x100 (LStr "20") = Some 20) as Ex by reflexivity.
  eexists _, _, _, a, b. split; [|split; [|exact Ha]].
  - cbn [collect isActive fixed20z bubble bubblePadding visible options zData
         andb orb].
    change (minSize fixed20) with (LStr "20").
    change (maxSize fixed20) with (LStr "20"). rewrite Ex.
    rewrite Ef, En.
    unfold Math.min, Math.max. rdecide. reflexivity.
  - cbn [collect isActive fixed20z bubble bubblePadding visible options zData
         andb orb].
    change (minSize fixed20) with (LStr "20").
    change (maxSize fixed20) with (LStr "20"). rewrite Ex.
    rewrite Ef. reflexivity.
Qed.

(** X23.  A series with no data (its z-data, and with it its x- and
    y-data, empty) whose sizes read as numbers is passed over by the guard
    on [zData.length]: it adds nothing to the global zMin and zMax, and on
    an axis of non-zero length [beforePadding] completes with that series
    whenever it does without it, leaving [axis.min] and [axis.max] as they
    are without it. *)
Theorem empty_series_is_skipped {H : Utilities} (chart : Chart) (axis : Axis.t)
        (l1 l2 : list Series) (s : Series) (a0 : Axis.t) :
  zData s = [] -> xData s = [] -> yData s = [] ->
  wellFormed chart s ->
  Axis.len axis <> 0 ->
  beforePadding chart (withSeries axis (l1 ++ l2)) = Some a0 ->
  (forall zMin zMax,
      option_map snd (collect chart (Axis.isXAxis axis) (l1 ++ s :: l2) zMin zMax)
      = option_map snd (collect chart (Axis.isXAxis axis) (l1 ++ l2) zMin zMax))
  /\
  exists a1,
    beforePadding chart (withSeries axis (l1 ++ s :: l2)) = Some a1 /\
    Axis.min a1 = Axis.min a0 /\ Axis.max a1 = Axis.max a0.
Proof.
  intros noZ noX noY Hwf Hlen0 E0. split.
  - intros zMin zMax. rewrite (collect_skips_empty chart s noZ Hwf).
    destruct (collect chart _ (l1 ++ l2) zMin zMax) as [[l' z]|]; reflexivity.
  - unfold beforePadding in *. cbn [withSeries Axis.isXAxis Axis.series Axis.len] in *.
    rewrite (collect_skips_empty chart s noZ Hwf).
    destruct (collect chart (Axis.isXAxis axis) (l1 ++ l2) _ _)
      as [[ss1 [zMin zMax]]|] eqn:Hc; [|discriminate].
    cbn [insertedIn].
    change (measure chart (withSeries axis (l1 ++ l2)))
      with (measure chart axis) in E0.
    change (measure chart (withSeries axis (l1 ++ s :: l2)))
      with (measure chart axis).
    pose proof (Forall2_length (collect_each chart _ _ _ _ _ _ Hc)) as Hlen.
    rewrite length_app in Hlen.
    assert (exists fs sk, ss1 = fs ++ sk /\ List.length fs = List.length l1)
      as [fs [sk [-> Hf]]].
    { exists (firstn (List.length l1) ss1), (skipn (List.length l1) ss1).
      split; [symmetry; apply firstn_skipn | rewrite length_firstn; lia]. }
    rewrite <- Hf.
    rewrite (measure_skips_empty chart s Hwf axis noX noY).
    destruct (measure chart axis zMin zMax _ _) as [[ss2 [pxMin pxMax]]|] eqn:Hm;
      [|discriminate].
    cbn [insertedIn].
    destruct (measure_each chart axis _ _ _ _ _ _ Hm) as [HF2 _].
    pose proof (Forall2_length HF2) as Hlen2.
    unfold writesNonNumber in *. unfold pad in *.
    cbn [Axis.min Axis.max Axis.len Axis.isLog Axis.options_min Axis.options_max
         Axis.userMin Axis.userMax withSeries] in *.
    rewrite existsb_insertAt by (rewrite <- Hlen2, length_app; lia).
    rewrite measuredEmpty_isActive.
    change (range (withSeries axis (l1 ++ l2))) with (range axis) in *.
    change (range (withSeries axis (l1 ++ s :: l2))) with (range axis).
    change (paddedTransA (withSeries axis (l1 ++ l2)))
      with (paddedTransA axis) in *.
    change (paddedTransA (withSeries axis (l1 ++ s :: l2)))
      with (paddedTransA axis).
    destruct (existsb (isActive chart) ss2) eqn:Hex.
    + rewrite orb_true_r.
      destruct (true && Rltb 0 (range axis) && negb (Axis.isLog axis)
                && (unpinned (Axis.options_min axis) (Axis.userMin axis)
                    || unpinned (Axis.options_max axis) (Axis.userMax axis))
                && (Reqb (Axis.len axis) 0
                    || Reqb (paddedTransA axis pxMin pxMax) 0));
        [discriminate|].
      injection E0 as <-. eexists. split; [reflexivity|]. split; reflexivity.
    + rewrite orb_false_r. simpl in E0. injection E0 as <-.
      assert (pxMin = 0 /\ pxMax = Axis.len axis) as [-> ->].
      { rewrite (existsb_Forall2 chart _ _ _
                      (radiiSet_isActive chart axis zMin zMax) HF2) in Hex.
        rewrite (measure_inactive chart axis zMin zMax _ Hex) in Hm.
        now injection Hm as _ <- <-. }
      rewrite (Reqb_false _ _ Hlen0). cbn [orb Axis.min Axis.max].
      destruct (Rltb 0 (range axis)) eqn:Hr;
        [|rewrite !andb_false_r; cbn [andb]; eexists; split; [reflexivity|];
          split; reflexivity].
      assert (0 < range axis) as Hr'
          by (unfold Rltb in Hr; destruct (Rlt_dec 0 (range axis));
              [assumption|discriminate]).
      assert (paddedTransA axis 0 (Axis.len axis) <> 0) as Ht.
      { unfold paddedTransA, transA.
        replace ((Axis.len axis + 0 - (Axis.len axis - Axis.len axis))
                 / Axis.len axis) with 1 by (field; assumption).
        rewrite Rmult_1_r. unfold Rdiv. apply Rmult_integral_contrapositive.
        split; [assumption|]. apply Rinv_neq_0_compat. lra. }
      rewrite (Reqb_false _ _ Ht). rewrite !andb_false_r.
      eexists. split; [reflexivity|]. cbn [Axis.min Axis.max].
      destruct (isActive chart s && true && negb (Axis.isLog axis)).
      * split.
        -- destruct (unpinned _ _); simpl; [|reflexivity].
           unfold Rdiv. rewrite Rmult_0_l. apply Rplus_0_r.
        -- destruct (unpinned (Axis.options_max axis) _); simpl; [|reflexivity].
           unfold Rdiv. rewrite Rminus_diag, Rmult_0_l. apply Rplus_0_r.
      * split; reflexivity.
Qed.

(** A series without data next to a series with z values 5 and 10. *)
Lemma empty_series_is_skipped_witness :
  (forall zMin zMax,
      option_map snd
        (collect plot200x100 true
                 [fixed20z [Some 5; Some 10]; bubble fixed20 [] [] []] zMin zMax)
      = option_map snd
          (collect plot200x100 true [fixed20z [Some 5; Some 10]] zMin zMax))
  /\
  exists a1,
    beforePadding plot200x100
      (withSeries axisOnePoint
                  [fixed20z [Some 5; Some 10]; bubble fixed20 [] [] []])
    = Some a1 /\
    Axis.min a1 = 0 /\ Axis.max a1 = 10.
Proof.
  edestruct (empty_series_is_skipped
               plot200x100 axisOnePoint [fixed20z [Some 5; Some 10]] []
               (bubble fixed20 [] [] []))
    as [Hz [a1 [E1 [Hmin Hmax]]]].
  - reflexivity.
  - reflexivity.
  - reflexivity.
  - intros _. cbn. repeat split; try discriminate. lia.
  - cbn [Axis.len axisOnePoint xAxis]. lra.
  - unfold axisOnePoint, fixed20z, fixed20, plot200x100, withSeries.
    js_eval. repeat ceil_is 20%Z. js_eval. reflexivity.
  - split; [exact Hz|]. exists a1. split; [exact E1|].
    rewrite Hmin, Hmax. cbv [Axis.min Axis.max]. split; field.
Defined.

(** ** Points without a z value *)


Section NullRadius.

Variable axis : Axis.t.






End NullRadius.



(** ** Running the pass again *)


(** * Further properties of the code *)

(** ** getRadii: shape and bounds of the radii *)

Lemma radiiLoop_null_iff o zR lo hi zs :
  forall zMin zMax i,
    nth_error zs i = Some None <->
    nth_error (radiiLoop o zR lo hi zs zMin zMax) i = Some None.
Proof.
  induction zs as [|z zs IH]; intros zMin zMax i.
  - destruct i; simpl; split; discriminate.
  - cbn [radiiLoop]. destruct (remap o z zMin zMax) as [[v a] b] eqn:Er.
    destruct i as [|i]; [|apply IH]. simpl.
    unfold remap in Er. destruct z as [x|].
    + assert (exists w, v = Some w) as [w ->]
          by (destruct (sizeByAbsoluteValue o); injection Er as <- _ _; eauto).
      unfold radiusOf. destruct (Rltb w a); split; discriminate.
    + injection Er as <- _ _. simpl. tauto.
Qed.

(** X1.  [getRadii] leaves one radius per cell of [zData], and a radius is
    [null] exactly where the z value is, with or without sizing by
    absolute value. *)
Theorem getRadii_one_radius_per_point (s : Series) (zMin zMax lo hi : R) :
  exists rs,
    radii (getRadii s zMin zMax lo hi) = Some rs /\
    List.length rs = List.length (zData s) /\
    forall i, nth_error (zData s) i = Some None <-> nth_error rs i = Some None.
Proof.
  eexists. split; [reflexivity|]. split.
  - apply radiiLoop_length.
  - intros i. apply radiiLoop_null_iff.
Qed.

Lemma relPos_le_1 zR v zMin : v - zMin <= zR -> relPos zR v zMin <= 1.
Proof.
  intros Hv. unfold relPos, Rltb. destruct (Rlt_dec 0 zR) as [Hr|Hr]; [|lra].
  apply Rmult_le_reg_r with zR; [assumption|].
  unfold Rdiv. rewrite Rmult_assoc, Rinv_l by lra. lra.
Qed.

Lemma sized_bounds o p : 0 <= p -> p <= 1 -> 0 <= sized o p <= 1.
Proof.
  intros H0 H1. unfold sized. rewrite (Rleb_true 0 p) by assumption.
  destruct (sizeByArea o); simpl; [|lra]. split; [apply sqrt_pos|].
  rewrite <- sqrt_1. apply sqrt_le_1; lra.
Qed.

Lemma sized_pos o p : 0 <= p -> 0 <= sized o p.
Proof.
  intros H0. unfold sized. rewrite (Rleb_true 0 p) by assumption.
  destruct (sizeByArea o); simpl; [apply sqrt_pos | assumption].
Qed.

(** A value at or above the [zMin] of the loop is sized at [lo / 2] at
    least. *)
Lemma radiusOf_at_least o zR lo hi zMin v :
  lo <= hi -> zMin <= v ->
  exists r, radiusOf o zR lo hi (Some v) zMin = Some r /\ lo / 2 <= r.
Proof.
  intros Hlh Hv. unfold radiusOf. rewrite Rltb_false by assumption.
  eexists. split; [reflexivity|].
  pose proof (sized_pos o (relPos zR v zMin) (relPos_nonneg zR v zMin Hv)) as Hp.
  pose proof (ceil_ge (lo + sized o (relPos zR v zMin) * (hi - lo))) as Hc.
  assert (0 <= sized o (relPos zR v zMin) * (hi - lo))
    by (apply Rmult_le_pos; lra).
  lra.
Qed.

(** X2.  Without sizing by absolute value, a value within [zMin, zMax] is
    sized between the pixel bounds: its radius is at least [minPx / 2] and at
    most [ceil(maxPx) / 2]. *)
Theorem getRadii_within_pixel_bounds (s : Series) (zMin zMax lo hi : R)
        (i : nat) (z : R) :
  sizeByAbsoluteValue (options s) = false ->
  lo <= hi ->
  nth_error (zData s) i = Some (Some z) ->
  zMin <= z <= zMax ->
  exists rs r,
    radii (getRadii s zMin zMax lo hi) = Some rs /\
    nth_error rs i = Some (Some r) /\
    lo / 2 <= r <= Math.ceil hi / 2.
Proof.
  intros Hplain Hlh Hi [Hlo Hhi].
  eexists _, _. split; [reflexivity|].
  rewrite (radiiLoop_plain_nth _ _ _ _ Hplain _ _ _ _ _ Hi).
  unfold radiusOf. rewrite Rltb_false by assumption.
  split; [reflexivity|].
  destruct (sized_bounds (options s) (relPos (zMax - zMin) z zMin)) as [H0 H1];
    [now apply relPos_nonneg | apply relPos_le_1; lra |].
  set (p := sized (options s) (relPos (zMax - zMin) z zMin)) in *.
  assert (0 <= p * (hi - lo)) by (apply Rmult_le_pos; lra).
  assert (p * (hi - lo) <= 1 * (hi - lo))
    by (apply Rmult_le_compat_r; lra).
  pose proof (ceil_ge (lo + p * (hi - lo))).
  pose proof (ceil_mono (lo + p * (hi - lo)) hi ltac:(lra)).
  lra.
Qed.

(** The values 0, 4 and 10 of a series sized over [0, 10] between 8 and 20
    pixels. *)
Lemma getRadii_within_pixel_bounds_witness :
  exists rs r,
    radii (getRadii (bubble plainWidth [Some 0; Some 1] [Some 0; Some 0]
                            [Some 4; Some 10]) 0 10 8 20) = Some rs /\
    nth_error rs 0 = Some (Some r) /\
    8 / 2 <= r <= Math.ceil 20 / 2.
Proof.
  apply (getRadii_within_pixel_bounds
           (bubble plainWidth [Some 0; Some 1] [Some 0; Some 0]
                   [Some 4; Some 10]) 0 10 8 20 0 4);
    try reflexivity; lra.
Defined.

Lemma radiiLoop_abs_nth o zR lo hi zs :
  sizeByAbsoluteValue o = true ->
  forall zMin zMax i z,
    nth_error zs i = Some (Some z) ->
    nth_error (radiiLoop o zR lo hi zs zMin zMax) i
    = Some (radiusOf o zR lo hi (Some (Math.abs (z - zThreshold o))) 0).
Proof.
  intros Habs. induction zs as [|z0 zs IH]; intros zMin zMax i z.
  - destruct i; discriminate.
  - cbn [radiiLoop]. destruct (remap o z0 zMin zMax) as [[v a] b] eqn:Er.
    destruct i as [|i]; [|apply IH]. simpl. intros [= ->].
    unfold remap in Er. rewrite Habs in Er. now injection Er as <- <- _.
Qed.

(** X3.  Sized by absolute value, no value is below the range: every
    non-null z receives a radius of at least [minPx / 2]. *)
Theorem getRadii_abs_never_below_range (s : Series) (zMin zMax lo hi : R)
        (i : nat) (z : R) :
  sizeByAbsoluteValue (options s) = true ->
  lo <= hi ->
  nth_error (zData s) i = Some (Some z) ->
  exists rs r,
    radii (getRadii s zMin zMax lo hi) = Some rs /\
    nth_error rs i = Some (Some r) /\
    lo / 2 <= r.
Proof.
  intros Habs Hlh Hi.
  destruct (radiusOf_at_least (options s) (zMax - zMin) lo hi 0
                              (Math.abs (z - zThreshold (options s))) Hlh)
    as [r [Er Hr]]; [apply Rabs_pos|].
  eexists _, r. split; [reflexivity|].
  rewrite (radiiLoop_abs_nth _ _ _ _ _ Habs _ _ _ _ Hi). now rewrite Er.
Qed.

(** The value -10 of a series sized by absolute value around 0. *)
Lemma getRadii_abs_never_below_range_witness :
  exists rs r,
    radii (getRadii (bubble absWidth [Some 0] [Some 0] [Some (-10)])
                    (-10) 5 10 40) = Some rs /\
    nth_error rs 0 = Some (Some r) /\
    10 / 2 <= r.
Proof.
  apply (getRadii_abs_never_below_range
           (bubble absWidth [Some 0] [Some 0] [Some (-10)]) (-10) 5 10 40 0 (-10));
    try reflexivity; lra.
Defined.

Lemma sized_0 o : sized o 0 = 0.
Proof.
  unfold sized. rewrite Rleb_true by lra.
  destruct (sizeByArea o); simpl; [apply sqrt_0 | reflexivity].
Qed.

Lemma sized_1 o : sized o 1 = 1.
Proof.
  unfold sized. rewrite Rleb_true by lra.
  destruct (sizeByArea o); simpl; [apply sqrt_1 | reflexivity].
Qed.

(** X4.  Without sizing by absolute value and over a range
    [zMax - zMin > 0], the ends of the range take the ends of the pixel
    scale, whichever way the series is sized: the value [zMin] has radius
    [ceil(minPx) / 2] and the value [zMax] has radius [ceil(maxPx) / 2]. *)
Theorem getRadii_range_ends (s : Series) (zMin zMax lo hi : R)
        (i : nat) (z : R) :
  sizeByAbsoluteValue (options s) = false ->
  0 < zMax - zMin ->
  nth_error (zData s) i = Some (Some z) ->
  exists rs,
    radii (getRadii s zMin zMax lo hi) = Some rs /\
    (z = zMin -> nth_error rs i = Some (Some (Math.ceil lo / 2))) /\
    (z = zMax -> nth_error rs i = Some (Some (Math.ceil hi / 2))).
Proof.
  intros Hplain Hr Hi. eexists. split; [reflexivity|].
  rewrite (radiiLoop_plain_nth _ _ _ _ Hplain _ _ _ _ _ Hi).
  unfold radiusOf, relPos. rewrite (Rltb_true 0 _) by assumption. split.
  - intros ->. rewrite Rltb_false by lra.
    replace ((zMin - zMin) / (zMax - zMin)) with 0 by (unfold Rdiv; ring).
    rewrite sized_0. replace (lo + 0 * (hi - lo)) with lo by ring.
    reflexivity.
  - intros ->. rewrite Rltb_false by lra.
    replace ((zMax - zMin) / (zMax - zMin)) with 1 by (field; lra).
    rewrite sized_1. replace (lo + 1 * (hi - lo)) with hi by ring.
    reflexivity.
Qed.

(** The value 10 at the top of the range [0, 10]. *)
Lemma getRadii_range_ends_witness :
  exists rs,
    radii (getRadii (bubble plainWidth [Some 0; Some 1] [Some 0; Some 0]
                            [Some 4; Some 10]) 0 10 8 20) = Some rs /\
    (10 = 0 -> nth_error rs 1 = Some (Some (Math.ceil 8 / 2))) /\
    (10 = 10 -> nth_error rs 1 = Some (Some (Math.ceil 20 / 2))).
Proof.
  apply (getRadii_range_ends
           (bubble plainWidth [Some 0; Some 1] [Some 0; Some 0]
                   [Some 4; Some 10]) 0 10 8 20 1 10);
    try reflexivity; lra.
Defined.

(** X5.  Sized by absolute value over a range [zMax - zMin > 0], a value
    equal to [zThreshold] takes the smallest size, [ceil(minPx) / 2]. *)
Theorem getRadii_abs_at_threshold (s : Series) (zMin zMax lo hi : R) (i : nat) :
  sizeByAbsoluteValue (options s) = true ->
  0 < zMax - zMin ->
  nth_error (zData s) i = Some (Some (zThreshold (options s))) ->
  exists rs,
    radii (getRadii s zMin zMax lo hi) = Some rs /\
    nth_error rs i = Some (Some (Math.ceil lo / 2)).
Proof.
  intros Habs Hr Hi. eexists. split; [reflexivity|].
  rewrite (radiiLoop_abs_nth _ _ _ _ _ Habs _ _ _ _ Hi).
  unfold radiusOf, relPos, Math.abs. rewrite (Rltb_true 0 _) by assumption.
  rewrite Rminus_diag, Rabs_R0. rewrite Rltb_false by lra.
  replace ((0 - 0) / (zMax - zMin)) with 0 by (unfold Rdiv; ring).
  rewrite sized_0. replace (lo + 0 * (hi - lo)) with lo by ring.
  reflexivity.
Qed.

(** The value 2 of a series sized by absolute value around 2. *)
Lemma getRadii_abs_at_threshold_witness :
  exists rs,
    radii (getRadii (bubble absWidth2 [Some 0] [Some 0] [Some 2]) 0 10 10 60)
    = Some rs /\
    nth_error rs 0 = Some (Some (Math.ceil 10 / 2)).
Proof.
  apply (getRadii_abs_at_threshold
           (bubble absWidth2 [Some 0] [Some 0] [Some 2]) 0 10 10 60 0);
    try reflexivity. lra.
Defined.

Lemma ceil_least x n : x <= IZR n -> Math.ceil x <= IZR n.
Proof.
  intros Hx. pose proof (ceil_lt x) as Hc. unfold Math.ceil in *.
  apply IZR_le.
  assert (IZR (- Int_part (- x)) < IZR (n + 1)) as Hlt
      by (rewrite plus_IZR; lra).
  apply lt_IZR in Hlt. lia.
Qed.

Lemma ceil_double x :
  2 * Math.ceil x - 2 < Math.ceil (2 * x) <= 2 * Math.ceil x.
Proof.
  pose proof (ceil_ge x) as H1. pose proof (ceil_lt x) as H2.
  pose proof (ceil_ge (2 * x)) as H3. split; [lra|].
  unfold Math.ceil at 2. rewrite <- mult_IZR.
  apply ceil_least. rewrite mult_IZR. fold (Math.ceil x). lra.
Qed.

(** X6.  Sized by area from [minPx = 0], without sizing by absolute value:
    a value four times as far above [zMin] as another is drawn with twice
    its radius, up to the pixel that the rounding of the diameter costs. *)
Theorem area_sizing_doubles_radius (s : Series) (zMin zMax hi : R)
        (i j : nat) (z1 z2 : R) :
  sizeByAbsoluteValue (options s) = false ->
  sizeBy (options s) <> "width"%string ->
  0 < zMax - zMin ->
  nth_error (zData s) i = Some (Some z1) ->
  nth_error (zData s) j = Some (Some z2) ->
  zMin <= z1 ->
  z2 - zMin = 4 * (z1 - zMin) ->
  exists rs r1 r2,
    radii (getRadii s zMin zMax 0 hi) = Some rs /\
    nth_error rs i = Some (Some r1) /\
    nth_error rs j = Some (Some r2) /\
    2 * r1 - 1 < r2 <= 2 * r1.
Proof.
  intros Hplain Harea Hr Hi Hj H1 H4.
  eexists _, _, _. split; [reflexivity|].
  rewrite (radiiLoop_plain_nth _ _ _ _ Hplain _ _ _ _ _ Hi).
  rewrite (radiiLoop_plain_nth _ _ _ _ Hplain _ _ _ _ _ Hj).
  unfold radiusOf. rewrite !Rltb_false by lra.
  split; [reflexivity|]. split; [reflexivity|].
  assert (0 <= relPos (zMax - zMin) z1 zMin) as Hp by now apply relPos_nonneg.
  assert (relPos (zMax - zMin) z2 zMin = 4 * relPos (zMax - zMin) z1 zMin) as ->.
  { unfold relPos. rewrite Rltb_true by assumption. rewrite H4.
    unfold Rdiv. ring. }
  unfold sized, sizeByArea. apply String.eqb_neq in Harea. rewrite Harea.
  rewrite !Rleb_true by lra. simpl. unfold Math.sqrt.
  rewrite sqrt_mult by lra.
  replace 4 with (2 * 2) by lra. rewrite sqrt_square by lra.
  set (p := sqrt (relPos (zMax - zMin) z1 zMin)).
  replace (0 + 2 * p * (hi - 0)) with (2 * (0 + p * (hi - 0))) by ring.
  pose proof (ceil_double (0 + p * (hi - 0))). lra.
Qed.

(** The values 2 and 8 over [0, 10]. *)
Lemma area_sizing_doubles_radius_witness :
  exists rs r1 r2,
    radii (getRadii (bubble plainArea [Some 0; Some 1] [Some 0; Some 0]
                            [Some 2; Some 8]) 0 10 0 30) = Some rs /\
    nth_error rs 0 = Some (Some r1) /\
    nth_error rs 1 = Some (Some r2) /\
    2 * r1 - 1 < r2 <= 2 * r1.
Proof.
  apply (area_sizing_doubles_radius
           (bubble plainArea [Some 0; Some 1] [Some 0; Some 0] [Some 2; Some 8])
           0 10 30 0 1 2 8);
    try reflexivity; try lra.
  cbn. discriminate.
Defined.

(** ** translate: what is drawn *)

Lemma Rleb_inv a b : Rleb a b = true -> a <= b.
Proof. unfold Rleb. destruct (Rle_dec a b); [auto | discriminate]. Qed.

Lemma translatePoint_Marker_inv (s : Series) (i : nat) (plotX plotY : R)
      (r w h : R) (b : Box) :
  translatePoint s i plotX plotY = Marker r w h b ->
  (exists m, ToNumber (minPxSize s) = Some m /\ m / 2 <= r) /\
  w = 2 * r /\ h = 2 * r /\
  b = {| box_x := plotX - r; box_y := plotY - r;
         box_width := 2 * r; box_height := 2 * r |}.
Proof.
  unfold translatePoint.
  destruct (match radii s with Some rs => radiusAt rs i | None => JNum 0 end)
    as [| |r0]; try discriminate.
  destruct (ToNumber (minPxSize s)) as [m|]; [|discriminate].
  destruct (Rleb (m / 2) r0) eqn:E; [|discriminate].
  intros [= <- <- <- <-]. apply Rleb_inv in E.
  repeat split; eauto.
Qed.

(** X8.  Called with the series' [minPxSize] as [minPx <= maxPx], [getRadii]
    followed by [translate] draws a point exactly when its z is a number
    that is not below the range: at or above [zMin], or any number when the
    series is sized by absolute value. *)
Theorem drawn_iff_not_below_range (s : Series) (zMin zMax lo hi : R)
        (i : nat) (plotX plotY : R) :
  minPxSize s = JNum lo ->
  lo <= hi ->
  (exists r w h b,
      translatePoint (getRadii s zMin zMax lo hi) i plotX plotY = Marker r w h b)
  <->
  (exists z,
      nth_error (zData s) i = Some (Some z) /\
      (sizeByAbsoluteValue (options s) = true \/ zMin <= z)).
Proof.
  intros Hm Hlh.
  assert (forall r,
             nth_error (radiiLoop (options s) (zMax - zMin) lo hi (zData s)
                                  zMin zMax) i = Some (Some r) ->
             lo / 2 <= r ->
             exists r' w h b,
               translatePoint (getRadii s zMin zMax lo hi) i plotX plotY
               = Marker r' w h b) as Hdraw.
  { intros r Er Hr. unfold translatePoint, radiusAt.
    cbn [radii getRadii set_radii minPxSize]. rewrite Er, Hm. simpl.
    rewrite Rleb_true by assumption. eauto. }
  split.
  - intros [r [w [h [b E]]]]. unfold translatePoint, radiusAt in E.
    cbn [radii getRadii set_radii minPxSize] in E. rewrite Hm in E. simpl in E.
    destruct (nth_error (radiiLoop _ _ _ _ _ _ _) i) as [[r0|]|] eqn:Er;
      try discriminate.
    simpl in E. destruct (Rleb (lo / 2) r0) eqn:Ele; [|discriminate].
    apply Rleb_inv in Ele.
    destruct (nth_error (zData s) i) as [[z|]|] eqn:Ez.
    + exists z. split; [reflexivity|].
      destruct (sizeByAbsoluteValue (options s)) eqn:Habs; [now left|right].
      rewrite (radiiLoop_plain_nth _ _ _ _ Habs _ _ _ _ _ Ez) in Er.
      unfold radiusOf in Er. destruct (Rltb z zMin) eqn:Elt.
      * injection Er as <-. lra.
      * unfold Rltb in Elt. destruct (Rlt_dec z zMin); [discriminate | lra].
    + apply (radiiLoop_null_iff (options s) (zMax - zMin) lo hi) with
        (zMin := zMin) (zMax := zMax) in Ez. congruence.
    + apply nth_error_None in Ez.
      assert (nth_error (radiiLoop (options s) (zMax - zMin) lo hi (zData s)
                                   zMin zMax) i = None) as En
          by (apply nth_error_None; now rewrite radiiLoop_length).
      congruence.
  - intros [z [Ez [Habs | Hz]]].
    + destruct (radiusOf_at_least (options s) (zMax - zMin) lo hi 0
                                  (Math.abs (z - zThreshold (options s))) Hlh)
        as [r [Er Hr]]; [apply Rabs_pos|].
      apply (Hdraw r); [|assumption].
      rewrite (radiiLoop_abs_nth _ _ _ _ _ Habs _ _ _ _ Ez). now rewrite Er.
    + destruct (sizeByAbsoluteValue (options s)) eqn:Habs.
      * destruct (radiusOf_at_least (options s) (zMax - zMin) lo hi 0
                                    (Math.abs (z - zThreshold (options s))) Hlh)
          as [r [Er Hr]]; [apply Rabs_pos|].
        apply (Hdraw r); [|assumption].
        rewrite (radiiLoop_abs_nth _ _ _ _ _ Habs _ _ _ _ Ez). now rewrite Er.
      * destruct (radiusOf_at_least (options s) (zMax - zMin) lo hi zMin z Hlh Hz)
          as [r [Er Hr]].
        apply (Hdraw r); [|assumption].
        rewrite (radiiLoop_plain_nth _ _ _ _ Habs _ _ _ _ _ Ez). now rewrite Er.
Qed.

(** The series with z values 1 and 5 sized over [5, 10]: the second point
    is drawn. *)
Lemma drawn_iff_not_below_range_witness :
  exists r w h b,
    translatePoint
      (getRadii (set_pxSizes (bubble ranged [Some 2; Some 8] [Some 0; Some 0]
                                     [Some 1; Some 5]) 8 20) 5 10 8 20)
      1 80 50 = Marker r w h b.
Proof.
  apply (drawn_iff_not_below_range
           (set_pxSizes (bubble ranged [Some 2; Some 8] [Some 0; Some 0]
                                [Some 1; Some 5]) 8 20) 5 10 8 20 1 80 50);
    [reflexivity | lra |].
  exists 5. split; [reflexivity | right; lra].
Defined.

(** ** haloPath *)

(** X9.  The halo of a point after [translate].  The size 0 gives no halo,
    whatever the marker.  For any other size, a point that is drawn has its
    halo [size] beyond the bubble, and so at least [minPxSize / 2 + size]
    from the centre; a point that is left without a shape keeps the marker
    it had: the halo is [size] beyond that marker's radius, and [size]
    alone when there is no marker, or its radius is [undefined], [null]
    or 0. *)
Theorem haloPath_follows_bubble (s : Series) (i : nat) (plotX plotY : R)
        (before : option jsval) (size : R) :
  let marker := markerRadius (translatePoint s i plotX plotY) before in
  haloPath marker 0 = 0 /\
  (size <> 0 ->
   (forall r w h b,
       translatePoint s i plotX plotY = Marker r w h b ->
       haloPath marker size = r + size /\
       exists m, ToNumber (minPxSize s) = Some m /\
                 m / 2 + size <= haloPath marker size) /\
   (translatePoint s i plotX plotY = Cleared ->
    (before = None \/ before = Some JUndefined \/ before = Some JNull
     \/ before = Some (JNum 0) ->
     haloPath marker size = size) /\
    (forall r0, before = Some (JNum r0) -> haloPath marker size = r0 + size))).
Proof.
  intros marker. subst marker. split.
  - unfold haloPath, Reqb. destruct (Req_dec_T 0 0); [reflexivity | lra].
  - intros Hs. split.
    + intros r w h b E.
      destruct (translatePoint_Marker_inv s i plotX plotY r w h b E)
        as [[m [Em Hm]] _].
      rewrite E. unfold haloPath, markerRadius, orZero, Reqb.
      destruct (Req_dec_T size 0); [contradiction|].
      split; [reflexivity|]. exists m. split; [assumption | lra].
    + intros E. rewrite E. unfold haloPath, markerRadius, orZero, Reqb.
      destruct (Req_dec_T size 0); [contradiction|]. split.
      * intros [-> | [-> | [-> | ->]]]; lra.
      * intros r0 ->. reflexivity.
Qed.

(** The series with z values 1 and 5 sized over [5, 10], with a halo of 5:
    the second point is drawn with radius 4, the first is not drawn and
    has no marker. *)
Lemma haloPath_follows_bubble_witness :
  haloPath
    (markerRadius
       (translatePoint
          (getRadii (set_pxSizes (bubble ranged [Some 2; Some 8] [Some 0; Some 0]
                                         [Some 1; Some 5]) 8 20) 5 10 8 20)
          1 80 50) None) 5 = 4 + 5 /\
  haloPath
    (markerRadius
       (translatePoint
          (getRadii (set_pxSizes (bubble ranged [Some 2; Some 8] [Some 0; Some 0]
                                         [Some 1; Some 5]) 8 20) 5 10 8 20)
          0 20 50) None) 5 = 5.
Proof.
  split.
  - destruct (haloPath_follows_bubble
                (getRadii (set_pxSizes (bubble ranged [Some 2; Some 8]
                                               [Some 0; Some 0] [Some 1; Some 5])
                                       8 20) 5 10 8 20)
                1 80 50 None 5) as [_ H5].
    destruct H5 as [Hdrawn _]; [lra|].
    apply (Hdrawn 4 (2 * 4) (2 * 4)
                  {| box_x := 80 - 4; box_y := 50 - 4;
                     box_width := 2 * 4; box_height := 2 * 4 |}).
    unfold ranged. js_eval. ceil_is 8%Z. js_eval.
    replace (8 / 2) with 4 by lra. reflexivity.
  - destruct (haloPath_follows_bubble
                (getRadii (set_pxSizes (bubble ranged [Some 2; Some 8]
                                               [Some 0; Some 0] [Some 1; Some 5])
                                       8 20) 5 10 8 20)
                0 20 50 None 5) as [_ H5].
    destruct H5 as [_ Hcleared]; [lra|].
    apply Hcleared; [|now left].
    unfold ranged. js_eval. reflexivity.
Defined.

(** ** beforePadding: what a run leaves alone *)

Section Frame.

Context {H : Utilities}.
Variable chart : Chart.

Lemma collect_inactive isX l :
  existsb (isActive chart) l = false ->
  forall zMin zMax, collect chart isX l zMin zMax = Some (l, (zMin, zMax)).
Proof.
  induction l as [|s l IH]; intros Hn zMin zMax; simpl; [reflexivity|].
  simpl in Hn. apply orb_false_elim in Hn. destruct Hn as [Ha Hl].
  rewrite Ha, (IH Hl). reflexivity.
Qed.

Lemma collect_not_X l :
  forall zMin zMax, collect chart false l zMin zMax = Some (l, (zMin, zMax)).
Proof.
  induction l as [|s l IH]; intros zMin zMax; simpl; [reflexivity|].
  rewrite andb_false_r, IH. reflexivity.
Qed.

Lemma collected_keepsData isX s s1 : collected chart isX s s1 -> keepsData s s1.
Proof.
  unfold collected, keepsData. destruct (isActive chart s && isX).
  - intros [lo [hi [_ [_ ->]]]]. repeat split.
  - intros ->. repeat split.
Qed.

Lemma radiiSet_keepsData axis zMin zMax s s1 :
  radiiSet chart axis zMin zMax s s1 -> keepsData s s1.
Proof.
  unfold radiiSet, keepsData. destruct (isActive chart s && Axis.isXAxis axis).
  - intros [lo [hi [_ [_ ->]]]]. repeat split.
  - intros ->. repeat split.
Qed.

Lemma keepsData_trans s1 s2 s3 :
  keepsData s1 s2 -> keepsData s2 s3 -> keepsData s1 s3.
Proof.
  unfold keepsData. intros [A1 [A2 [A3 [A4 [A5 A6]]]]] [B1 [B2 [B3 [B4 [B5 B6]]]]].
  repeat split; congruence.
Qed.

Lemma Forall2_chain {A : Type} (P Q R : A -> A -> Prop) l1 l2 :
  (forall a b c, P a b -> Q b c -> R a c) ->
  Forall2 P l1 l2 -> forall l3, Forall2 Q l2 l3 -> Forall2 R l1 l3.
Proof.
  intros HR HP. induction HP as [|a b l1 l2 Hab _ IH]; intros l3 HQ;
    inversion HQ; subst; constructor; eauto.
Qed.

Lemma Forall2_same {A : Type} (l l' : list A) :
  Forall2 (fun a b => b = a) l l' -> l' = l.
Proof. induction 1; [reflexivity | congruence]. Qed.

(** The two loops of a run, opened. *)
Lemma beforePadding_inv axis axis' :
  beforePadding chart axis = Some axis' ->
  exists ss1 zMin zMax ss2 pxMin pxMax,
    collect chart (Axis.isXAxis axis) (Axis.series axis)
            Number.MAX_VALUE (- Number.MAX_VALUE) = Some (ss1, (zMin, zMax)) /\
    measure chart axis zMin zMax ss1 (Some (0, Axis.len axis))
    = Some (ss2, (pxMin, pxMax)) /\
    axis' = pad chart axis ss2 pxMin pxMax.
Proof.
  intros E. destruct (beforePadding_opened chart axis axis' E)
    as [ss1 [zMin [zMax [ss2 [pxMin [pxMax [Hc [Hm [_ ->]]]]]]]]].
  eexists _, _, _, _, _, _. eauto.
Qed.

(** X10.  On an axis without a contributing series -- none with
    [bubblePadding], or all of them hidden while hidden series are ignored --
    the run changes nothing: the axis and its series come back as they
    were. *)
Theorem beforePadding_without_contributors (axis : Axis.t) :
  Forall (fun s => isActive chart s = false) (Axis.series axis) ->
  beforePadding chart axis = Some axis.
Proof.
  intros Hall.
  assert (existsb (isActive chart) (Axis.series axis) = false) as Hex.
  { induction Hall as [|s l Hs _ IH]; simpl; [reflexivity|].
    now rewrite Hs, IH. }
  unfold beforePadding.
  rewrite (collect_inactive _ _ Hex), (measure_inactive chart axis _ _ _ Hex).
  rewrite writesNonNumber_idle by now rewrite Hex.
  unfold pad. rewrite Hex. destruct axis; reflexivity.
Qed.

(** X11.  A run on a Y axis assigns nothing on the series: sizes and radii
    are computed on the X axis only. *)
Theorem beforePadding_Y_keeps_series (axis axis' : Axis.t) :
  Axis.isXAxis axis = false ->
  beforePadding chart axis = Some axis' ->
  Axis.series axis' = Axis.series axis.
Proof.
  intros onY E.
  destruct (beforePadding_inv _ _ E)
    as [ss1 [zMin [zMax [ss2 [pxMin [pxMax [Hc [Hm ->]]]]]]]].
  cbn [pad Axis.series]. rewrite onY, collect_not_X in Hc.
  injection Hc as <- _ _.
  destruct (measure_each chart axis _ _ _ _ _ _ Hm) as [HF _].
  apply Forall2_same. eapply Forall2_impl; [|exact HF].
  intros s s'. unfold radiiSet. now rewrite onY, andb_false_r.
Qed.

(** X12.  Whatever a run does, it leaves the axis's length, kind, data
    extremes and pinned extremes alone, keeps the series in number and
    order with their options, flags and data, and sets [allowZoomOutside]
    exactly when a series contributes (or it was set before). *)
Theorem beforePadding_frame (axis axis' : Axis.t) :
  beforePadding chart axis = Some axis' ->
  Axis.len axis' = Axis.len axis /\
  Axis.isXAxis axis' = Axis.isXAxis axis /\
  Axis.isLog axis' = Axis.isLog axis /\
  Axis.dataMin axis' = Axis.dataMin axis /\
  Axis.dataMax axis' = Axis.dataMax axis /\
  Axis.options_min axis' = Axis.options_min axis /\
  Axis.options_max axis' = Axis.options_max axis /\
  Axis.userMin axis' = Axis.userMin axis /\
  Axis.userMax axis' = Axis.userMax axis /\
  Forall2 keepsData (Axis.series axis) (Axis.series axis') /\
  Axis.allowZoomOutside axis'
  = existsb (isActive chart) (Axis.series axis) || Axis.allowZoomOutside axis.
Proof.
  intros E.
  destruct (beforePadding_inv _ _ E)
    as [ss1 [zMin [zMax [ss2 [pxMin [pxMax [Hc [Hm ->]]]]]]]].
  pose proof (collect_each chart _ _ _ _ _ _ Hc) as HF1.
  destruct (measure_each chart axis _ _ _ _ _ _ Hm) as [HF2 _].
  cbn [pad Axis.len Axis.isXAxis Axis.isLog Axis.dataMin Axis.dataMax
       Axis.options_min Axis.options_max Axis.userMin Axis.userMax
       Axis.series Axis.allowZoomOutside].
  repeat (split; [reflexivity|]). split.
  - apply (Forall2_chain (collected chart (Axis.isXAxis axis))
                         (radiiSet chart axis zMin zMax) keepsData
                         _ ss1); [|assumption|assumption].
    intros a b c Hab Hbc. eapply keepsData_trans;
      [eapply collected_keepsData | eapply radiiSet_keepsData]; eassumption.
  - f_equal.
    rewrite (existsb_Forall2 chart _ _ _
               (radiiSet_isActive chart axis zMin zMax) HF2).
    apply (existsb_Forall2 chart _ _ _
             (collected_isActive chart (Axis.isXAxis axis)) HF1).
Qed.

End Frame.

(** An axis that carries a series of another type only. *)
Lemma beforePadding_without_contributors_witness :
  beforePadding plot200x100
                (xAxis 100 0 10 0 10 JUndefined JUndefined
                       [otherSeries [Some 0; Some 10] [Some 1; Some 2]])
  = Some (xAxis 100 0 10 0 10 JUndefined JUndefined
                [otherSeries [Some 0; Some 10] [Some 1; Some 2]]).
Proof.
  apply (beforePadding_without_contributors plot200x100).
  repeat constructor.
Defined.

(** The Y axis of a series that the X axis has sized. *)
Lemma beforePadding_Y_keeps_series_witness :
  exists axis',
    beforePadding plot200x100 (yAxis 100 0 10 3 4 [sizedTwoPoints]) = Some axis' /\
    Axis.series axis' = [sizedTwoPoints].
Proof.
  assert (exists axis',
             beforePadding plot200x100 (yAxis 100 0 10 3 4 [sizedTwoPoints])
             = Some axis') as [axis' E].
  { unfold yAxis, sizedTwoPoints, fixed20. js_eval. ceil_is 20%Z. js_eval.
    eexists. reflexivity. }
  exists axis'. split; [exact E|].
  apply (beforePadding_Y_keeps_series
           plot200x100 (yAxis 100 0 10 3 4 [sizedTwoPoints]) axis' eq_refl E).
Defined.

Lemma beforePadding_frame_witness :
  exists axis',
    beforePadding plot200x100 axisTwoPoints = Some axis' /\
    Axis.len axis' = 100 /\
    Forall2 keepsData (Axis.series axisTwoPoints) (Axis.series axis') /\
    Axis.allowZoomOutside axis' = true.
Proof.
  assert (exists axis', beforePadding plot200x100 axisTwoPoints = Some axis')
    as [axis' E].
  { unfold axisTwoPoints, fixed20. js_eval. ceil_is 20%Z. js_eval.
    eexists. reflexivity. }
  exists axis'. split; [exact E|].
  destruct (beforePadding_frame plot200x100 _ _ E)
    as [Hl [_ [_ [_ [_ [_ [_ [_ [_ [Hk Hz]]]]]]]]]].
  repeat split; assumption.
Defined.

(** ** beforePadding: the Y axis needs the radii of the X axis *)

Section Order.

Variable axis : Axis.t.

Lemma overflow_from_None radius d : overflow axis radius d None = None.
Proof.
  unfold overflow. destruct d as [x|]; [|reflexivity].
  now destruct (Rleb (Axis.dataMin axis) x && Rleb x (Axis.dataMax axis)).
Qed.

Lemma overflows_from_None rs data : overflows axis rs data None = None.
Proof.
  unfold overflows.
  induction (combine data (seq 0 (List.length data))) as [|di l IH];
    simpl; [reflexivity|].
  rewrite IH. apply overflow_from_None.
Qed.

Lemma measure_from_None chart zMin zMax ss :
  measure chart axis zMin zMax ss None = None.
Proof.
  induction ss as [|s ss IH]; simpl; [reflexivity|].
  destruct (isActive chart s); [|now rewrite IH].
  unfold padSeries.
  destruct (if Axis.isXAxis axis then _ else _) as [s1|]; [|reflexivity].
  destruct (Rltb 0 (range axis)); [rewrite overflows_from_None|]; now rewrite IH.
Qed.

Lemma overflows_without_radii data y :
  In (Some y) data ->
  Axis.dataMin axis <= y <= Axis.dataMax axis ->
  forall px, overflows axis None data px = None.
Proof.
  intros Hin [Hlo Hhi] px. unfold overflows.
  generalize 0%nat. induction data as [|d data IH]; intros k; [destruct Hin|].
  cbn [List.length seq combine fold_right fst snd option_map].
  destruct Hin as [-> | Hin].
  - unfold overflow. rewrite !Rleb_true by assumption. simpl.
    now destruct (fold_right _ px _) as [[a b]|].
  - rewrite (IH Hin). apply overflow_from_None.
Qed.

End Order.

(** X13.  A run on a Y axis reads [series.radii], which only the run on
    the X axis assigns: with a contributing series that has no radii yet
    and a y value within the data extremes of an axis of positive range,
    the run does not complete. *)
Theorem beforePadding_Y_before_X (chart : Chart) (axis : Axis.t)
        (s : Series) (y : R) {H : Utilities} :
  Axis.isXAxis axis = false ->
  In s (Axis.series axis) ->
  isActive chart s = true ->
  radii s = None ->
  0 < Axis.max axis - Axis.min axis ->
  In (Some y) (yData s) ->
  Axis.dataMin axis <= y <= Axis.dataMax axis ->
  beforePadding chart axis = None.
Proof.
  intros onY Hin Ha Hr Hrange Hy Hbounds.
  unfold beforePadding. rewrite onY, collect_not_X.
  assert (forall px,
             measure chart axis Number.MAX_VALUE (- Number.MAX_VALUE)
                     (Axis.series axis) px = None) as ->; [|reflexivity].
  induction (Axis.series axis) as [|s0 l IH]; [destruct Hin|].
  intros px. simpl. destruct Hin as [-> | Hin].
  - rewrite Ha. unfold padSeries, dataOf. rewrite onY.
    rewrite Rltb_true by exact Hrange. rewrite Hr.
    rewrite (overflows_without_radii axis _ y Hy Hbounds).
    now rewrite measure_from_None.
  - destruct (isActive chart s0).
    + destruct (padSeries axis _ _ s0 px) as [[s1 px1]|]; [|reflexivity].
      now rewrite (IH Hin).
    + now rewrite (IH Hin).
Qed.

(** A fresh bubble series measured on its Y axis first. *)
Lemma beforePadding_Y_before_X_witness :
  beforePadding plot200x100
                (yAxis 100 0 10 3 4
                       [bubble fixed20 [Some 0; Some 10] [Some 3; Some 4]
                               [Some 5; Some 5]])
  = None.
Proof.
  apply (beforePadding_Y_before_X
           plot200x100 _
           (bubble fixed20 [Some 0; Some 10] [Some 3; Some 4] [Some 5; Some 5])
           3).
  - reflexivity.
  - left. reflexivity.
  - reflexivity.
  - reflexivity.
  - cbn. lra.
  - left. reflexivity.
  - cbn. lra.
Defined.

(** ** beforePadding on the X axis: one z range for all series *)

Lemma Forall2_nth_error {A B : Type} (P : A -> B -> Prop) l l' :
  Forall2 P l l' ->
  forall k a b, nth_error l k = Some a -> nth_error l' k = Some b -> P a b.
Proof.
  induction 1 as [|x y l l' Hxy _ IH]; intros [|k] a b; simpl;
    try discriminate.
  - now intros [= <-] [= <-].
  - apply IH.
Qed.

(** What the run on the X axis leaves of each contributing series. *)
Lemma X_pass_series {H : Utilities} (chart : Chart) (axis axis' : Axis.t) :
  Axis.isXAxis axis = true ->
  beforePadding chart axis = Some axis' ->
  exists ss1 zMin zMax,
    collect chart true (Axis.series axis)
            Number.MAX_VALUE (- Number.MAX_VALUE) = Some (ss1, (zMin, zMax)) /\
    Forall2
      (fun s s' =>
         isActive chart s = true ->
         exists lo hi,
           extreme chart (minSize (options s)) = Some lo /\
           extreme chart (maxSize (options s)) = Some hi /\
           s' = getRadii (set_pxSizes s lo (Math.max hi lo)) zMin zMax
                         lo (Math.max hi lo))
      (Axis.series axis) (Axis.series axis').
Proof.
  intros onX E.
  destruct (beforePadding_inv chart _ _ E)
    as [ss1 [zMin [zMax [ss2 [pxMin [pxMax [Hc [Hm ->]]]]]]]].
  rewrite onX in Hc. exists ss1, zMin, zMax. split; [exact Hc|].
  pose proof (collect_each chart _ _ _ _ _ _ Hc) as HF1.
  destruct (measure_each chart axis _ _ _ _ _ _ Hm) as [HF2 _].
  cbn [pad Axis.series].
  apply (Forall2_chain (collected chart true) (radiiSet chart axis zMin zMax)
                       _ _ ss1); [|assumption|assumption].
  intros a b c Hab Hbc Ha. unfold collected in Hab. rewrite Ha in Hab.
  simpl in Hab. destruct Hab as [lo [hi [Elo [Ehi ->]]]].
  unfold radiiSet in Hbc. rewrite isActive_set_pxSizes, Ha, onX in Hbc.
  simpl in Hbc. destruct Hbc as [lo' [hi' [[= <-] [[= <-] ->]]]].
  eauto.
Qed.

(** X14.  After the run on the X axis, every contributing series carries
    radii computed against one and the same z range, the global [zMin] and
    [zMax] of the collection, between its own pixel sizes; and its
    [maxPxSize] is never below its [minPxSize]. *)
Theorem radii_share_the_global_range {H : Utilities}
        (chart : Chart) (axis axis' : Axis.t) :
  Axis.isXAxis axis = true ->
  beforePadding chart axis = Some axis' ->
  exists ss1 zMin zMax,
    collect chart true (Axis.series axis)
            Number.MAX_VALUE (- Number.MAX_VALUE) = Some (ss1, (zMin, zMax)) /\
    Forall2
      (fun s s' =>
         isActive chart s = true ->
         exists lo hi,
           minPxSize s' = JNum lo /\ maxPxSize s' = JNum hi /\ lo <= hi /\
           radii s'
           = Some (radiiLoop (options s) (zMax - zMin) lo hi (zData s)
                             zMin zMax))
      (Axis.series axis) (Axis.series axis').
Proof.
  intros onX E.
  destruct (X_pass_series chart axis axis' onX E) as [ss1 [zMin [zMax [Hc HF]]]].
  exists ss1, zMin, zMax. split; [exact Hc|].
  eapply Forall2_impl; [|exact HF].
  intros s s' Hs Ha. destruct (Hs Ha) as [lo [hi [_ [_ ->]]]].
  exists lo, (Math.max hi lo). repeat split. apply Rmax_r.
Qed.

(** The series with sizes in conflict: both pixel sizes end at 50. *)
Lemma radii_share_the_global_range_witness :
  exists axis' ss1 zMin zMax,
    beforePadding plot200x100 axisConflict = Some axis' /\
    collect plot200x100 true (Axis.series axisConflict)
            Number.MAX_VALUE (- Number.MAX_VALUE) = Some (ss1, (zMin, zMax)) /\
    Forall2
      (fun s s' =>
         isActive plot200x100 s = true ->
         exists lo hi,
           minPxSize s' = JNum lo /\ maxPxSize s' = JNum hi /\ lo <= hi /\
           radii s'
           = Some (radiiLoop (options s) (zMax - zMin) lo hi (zData s)
                             zMin zMax))
      (Axis.series axisConflict) (Axis.series axis').
Proof.
  assert (exists axis', beforePadding plot200x100 axisConflict = Some axis')
    as [axis' E].
  { unfold axisConflict, conflicting, plot200x100. js_eval.
    match goal with
    | |- context [Math.ceil ?x] => rewrite (ceil_eq x 50) by lra
    end.
    js_eval. eexists. reflexivity. }
  destruct (radii_share_the_global_range plot200x100 axisConflict axis'
                                         eq_refl E)
    as [ss1 [zMin [zMax [Hc HF]]]].
  exists axis', ss1, zMin, zMax. auto.
Defined.

(** X15.  After the run on the X axis, a point of a contributing series
    that is not sized by absolute value, with z within the global range, is
    drawn by [translate], with a radius between half the series'
    [minPxSize] and half its [maxPxSize] rounded up. *)
Theorem in_range_points_are_drawn {H : Utilities}
        (chart : Chart) (axis axis' : Axis.t) (ss1 : list Series)
        (zMin zMax : R) (k i : nat) (s s' : Series) (z plotX plotY : R) :
  Axis.isXAxis axis = true ->
  beforePadding chart axis = Some axis' ->
  collect chart true (Axis.series axis)
          Number.MAX_VALUE (- Number.MAX_VALUE) = Some (ss1, (zMin, zMax)) ->
  nth_error (Axis.series axis) k = Some s ->
  nth_error (Axis.series axis') k = Some s' ->
  isActive chart s = true ->
  sizeByAbsoluteValue (options s) = false ->
  nth_error (zData s) i = Some (Some z) ->
  zMin <= z <= zMax ->
  exists lo hi r,
    minPxSize s' = JNum lo /\ maxPxSize s' = JNum hi /\
    lo / 2 <= r <= Math.ceil hi / 2 /\
    translatePoint s' i plotX plotY
    = Marker r (2 * r) (2 * r)
             {| box_x := plotX - r; box_y := plotY - r;
                box_width := 2 * r; box_height := 2 * r |}.
Proof.
  intros onX E Hc Hk Hk' Ha Hplain Hi [Hlo Hhi].
  destruct (X_pass_series chart axis axis' onX E)
    as [ss1' [zMin' [zMax' [Hc' HF]]]].
  rewrite Hc in Hc'. injection Hc' as _ <- <-.
  destruct (Forall2_nth_error _ _ _ HF k s s' Hk Hk' Ha)
    as [lo [hi [_ [_ ->]]]].
  set (hi' := Math.max hi lo).
  assert (lo <= hi') as Hlh by apply Rmax_r.
  assert (exists r,
             nth_error (radiiLoop (options s) (zMax - zMin) lo hi' (zData s)
                                  zMin zMax) i = Some (Some r) /\
             lo / 2 <= r <= Math.ceil hi' / 2) as [r [Er Hr]].
  { rewrite (radiiLoop_plain_nth _ _ _ _ Hplain _ _ _ _ _ Hi).
    unfold radiusOf. rewrite Rltb_false by assumption.
    eexists. split; [reflexivity|].
    destruct (sized_bounds (options s) (relPos (zMax - zMin) z zMin))
      as [H0 H1]; [now apply relPos_nonneg | apply relPos_le_1; lra |].
    set (p := sized (options s) (relPos (zMax - zMin) z zMin)) in *.
    assert (0 <= p * (hi' - lo)) by (apply Rmult_le_pos; lra).
    assert (p * (hi' - lo) <= 1 * (hi' - lo))
      by (apply Rmult_le_compat_r; lra).
    pose proof (ceil_ge (lo + p * (hi' - lo))).
    pose proof (ceil_mono (lo + p * (hi' - lo)) hi' ltac:(lra)).
    lra. }
  exists lo, hi', r. split; [reflexivity|]. split; [reflexivity|].
  split; [exact Hr|].
  unfold translatePoint, radiusAt.
  cbn [radii getRadii set_radii set_pxSizes minPxSize options zData].
  rewrite Er. simpl. now rewrite Rleb_true by lra.
Qed.

(** The second point of the series with z values -5 and 5. *)
Lemma in_range_points_are_drawn_witness :
  exists axis' s' lo hi r,
    beforePadding plot200x100 axisNegative = Some axis' /\
    nth_error (Axis.series axis') 0 = Some s' /\
    lo / 2 <= r <= Math.ceil hi / 2 /\
    translatePoint s' 1 80 50
    = Marker r (2 * r) (2 * r)
             {| box_x := 80 - r; box_y := 50 - r;
                box_width := 2 * r; box_height := 2 * r |}.
Proof.
  assert (exists axis' s',
             beforePadding plot200x100 axisNegative = Some axis' /\
             nth_error (Axis.series axis') 0 = Some s') as [axis' [s' [E Hs']]].
  { unfold axisNegative, noNegative, plot200x100. js_eval.
    ceil_is 20%Z. js_eval. eexists _, _. split; reflexivity. }
  edestruct (in_range_points_are_drawn
               plot200x100 axisNegative axis')
    with (zMin := 0) (zMax := 5) (k := 0%nat) (i := 1%nat) (z := 5)
         (s' := s') (plotX := 80) (plotY := 50)
    as [lo [hi [r [_ [_ [Hr Ht]]]]]].
  - reflexivity.
  - exact E.
  - unfold axisNegative, noNegative, plot200x100. js_eval. reflexivity.
  - reflexivity.
  - exact Hs'.
  - reflexivity.
  - reflexivity.
  - reflexivity.
  - lra.
  - exists axis', s', lo, hi, r. auto.
Defined.

(** ** beforePadding: what the overflows measure *)

Section Enclosure.

Variable axis : Axis.t.

Lemma overflows_enclose rs data px p :
  overflows axis (Some rs) data px = Some p ->
  forall i x r,
    nth_error data i = Some (Some x) ->
    Axis.dataMin axis <= x <= Axis.dataMax axis ->
    ToNumber (radiusAt rs i) = Some r ->
    encloses axis p x r.
Proof.
  unfold overflows.
  assert (forall k l q,
             fold_right
               (fun di acc =>
                  overflow axis
                           (option_map (fun l => radiusAt l (snd di)) (Some rs))
                           (fst di) acc)
               px (combine l (seq k (List.length l))) = Some q ->
             forall i x r,
               nth_error l i = Some (Some x) ->
               Axis.dataMin axis <= x <= Axis.dataMax axis ->
               ToNumber (radiusAt rs (k + i)) = Some r ->
               encloses axis q x r) as Hgen.
  { intros k l. revert k. induction l as [|d l IH]; intros k q Hf i x r Hi Hx Hr.
    - destruct i; discriminate.
    - cbn [List.length seq combine fold_right fst snd option_map] in Hf.
      pose proof Hf as Hw. apply overflow_widens in Hw.
      destruct Hw as [q0 [Eq0 [Hw1 Hw2]]].
      destruct i as [|i].
      + injection Hi as ->. rewrite Nat.add_0_r in Hr.
        rewrite Eq0 in Hf. unfold overflow in Hf.
        destruct Hx as [Hx1 Hx2]. rewrite !Rleb_true in Hf by assumption.
        simpl in Hf. destruct q0 as [a b]. rewrite Hr in Hf.
        injection Hf as <-. unfold encloses. simpl.
        split; [apply Rmin_l | apply Rmax_l].
      + rewrite Nat.add_succ_r in Hr.
        specialize (IH (S k) q0 Eq0 i x r Hi Hx Hr).
        unfold encloses in *. lra. }
  intros Hf i x r. apply (Hgen 0%nat data p Hf).
Qed.

End Enclosure.

(** X16.  The overflows enclose every bubble that is counted: once both
    loops have run over an axis of positive range, each number in the data
    of a contributing series that lies within the data extremes has its
    bubble, [radius] around [(x - min) * transA], between [pxMin] and
    [pxMax] (a [null] radius counting as 0). *)
Theorem overflows_enclose_every_bubble (chart : Chart) (axis : Axis.t)
        (zMin zMax : R) (ss ss2 : list Series) (px : option (R * R))
        (pxMin pxMax : R) :
  measure chart axis zMin zMax ss px = Some (ss2, (pxMin, pxMax)) ->
  0 < Axis.max axis - Axis.min axis ->
  Forall
    (fun s2 =>
       isActive chart s2 = true ->
       forall rs i x r,
         radii s2 = Some rs ->
         nth_error (dataOf axis s2) i = Some (Some x) ->
         Axis.dataMin axis <= x <= Axis.dataMax axis ->
         ToNumber (radiusAt rs i) = Some r ->
         pxMin <= (x - Axis.min axis) * transA axis - r /\
         (x - Axis.min axis) * transA axis + r <= pxMax)
    ss2.
Proof.
  intros Hm Hrange. revert px ss2 Hm.
  induction ss as [|s ss IH]; intros px ss2; simpl.
  - destruct px; [|discriminate]. intros [= <- _]. constructor.
  - destruct (isActive chart s) eqn:Ha.
    + destruct (padSeries axis zMin zMax s px) as [[s1 px1]|] eqn:Ep;
        [|discriminate].
      destruct (measure chart axis zMin zMax ss px1) as [[rest1 p1]|] eqn:Em;
        [|discriminate].
      intros [= <- ->]. constructor; [|eapply IH; eassumption].
      intros _ rs i x r Hrs Hi Hx Hr.
      destruct (measure_each chart axis _ _ _ _ _ _ Em) as [_ [q [-> [H1 H2]]]].
      unfold padSeries in Ep.
      destruct (if Axis.isXAxis axis then _ else _) as [s2|]; [|discriminate].
      unfold range in Ep. rewrite Rltb_true in Ep by assumption.
      injection Ep as -> Eo. rewrite Hrs in Eo.
      destruct (overflows_enclose axis _ _ _ _ Eo i x r Hi Hx Hr) as [E1 E2].
      simpl in H1, H2. lra.
    + destruct (measure chart axis zMin zMax ss px) as [[rest1 p1]|] eqn:Em;
        [|discriminate].
      intros [= <- ->]. constructor; [|eapply IH; eassumption].
      intros Ha'. congruence.
Qed.

(** Two bubbles of radius 10 at the ends of an axis of 100 pixels. *)
Lemma overflows_enclose_every_bubble_witness :
  exists ss2,
    measure plot200x100 axisTwoPoints 5 5
            [set_pxSizes (bubble fixed20 [Some 0; Some 10] [Some 0; Some 0]
                                 [Some 5; Some 5]) 20 20]
            (Some (0, 100)) = Some (ss2, (-10, 110)) /\
    Forall
      (fun s2 =>
         isActive plot200x100 s2 = true ->
         forall rs i x r,
           radii s2 = Some rs ->
           nth_error (dataOf axisTwoPoints s2) i = Some (Some x) ->
           Axis.dataMin axisTwoPoints <= x <= Axis.dataMax axisTwoPoints ->
           ToNumber (radiusAt rs i) = Some r ->
           -10 <= (x - Axis.min axisTwoPoints) * transA axisTwoPoints - r /\
           (x - Axis.min axisTwoPoints) * transA axisTwoPoints + r <= 110)
      ss2.
Proof.
  assert (exists ss2,
             measure plot200x100 axisTwoPoints 5 5
                     [set_pxSizes (bubble fixed20 [Some 0; Some 10]
                                          [Some 0; Some 0] [Some 5; Some 5])
                                  20 20]
                     (Some (0, 100)) = Some (ss2, (-10, 110))) as [ss2 Hm].
  { unfold axisTwoPoints, fixed20, plot200x100. js_eval. ceil_is 20%Z. js_eval.
    eexists. do 2 f_equal. f_equal; lra. }
  exists ss2. split; [exact Hm|].
  apply (overflows_enclose_every_bubble _ _ _ _ _ _ _ _ _ Hm).
  cbn. lra.
Defined.

(** ** beforePadding: the padded extent *)

(** X17.  As long as the bubbles overflow by less than the length of the
    axis in total, padding only widens the axis: [axis.min] never grows and
    [axis.max] never shrinks. *)
Theorem padding_only_widens {H : Utilities} (chart : Chart) (axis : Axis.t)
        (ss1 ss2 : list Series) (zMin zMax pxMin pxMax : R) :
  collect chart (Axis.isXAxis axis) (Axis.series axis)
          Number.MAX_VALUE (- Number.MAX_VALUE) = Some (ss1, (zMin, zMax)) ->
  measure chart axis zMin zMax ss1 (Some (0, Axis.len axis))
  = Some (ss2, (pxMin, pxMax)) ->
  0 < Axis.len axis ->
  pxMax - Axis.len axis - pxMin < Axis.len axis ->
  exists axis',
    beforePadding chart axis = Some axis' /\
    Axis.min axis' <= Axis.min axis /\ Axis.max axis <= Axis.max axis'.
Proof.
  intros Hc Hm Hlen Hover. exists (pad chart axis ss2 pxMin pxMax).
  split.
  { rewrite (beforePadding_closing chart axis _ _ _ _ _ _ Hc Hm).
    now rewrite writesNonNumber_room. }
  destruct (measure_each chart axis _ _ _ _ _ _ Hm) as [_ [q [[= <-] [H1 H2]]]].
  simpl in H1, H2.
  unfold pad. cbn [Axis.min Axis.max].
  destruct (existsb (isActive chart) ss2 && Rltb 0 (range axis)
            && negb (Axis.isLog axis)) eqn:Ego; [|simpl; lra].
  apply andb_prop in Ego. destruct Ego as [Ego _].
  apply andb_prop in Ego. destruct Ego as [_ Hr].
  unfold Rltb in Hr. destruct (Rlt_dec 0 (range axis)) as [Hr'|]; [|discriminate].
  assert (0 < paddedTransA axis pxMin pxMax) as Ht.
  { unfold paddedTransA, transA.
    apply Rmult_lt_0_compat; apply Rdiv_lt_0_compat; lra. }
  assert (pxMin / paddedTransA axis pxMin pxMax <= 0) as Hlo.
  { pose proof (Rinv_0_lt_compat _ Ht). unfold Rdiv. nra. }
  assert (0 <= (pxMax - Axis.len axis) / paddedTransA axis pxMin pxMax) as Hhi.
  { unfold Rdiv. apply Rmult_le_pos; [lra|].
    left. now apply Rinv_0_lt_compat. }
  simpl. split.
  - destruct (unpinned (Axis.options_min axis) _); lra.
  - destruct (unpinned (Axis.options_max axis) _); lra.
Qed.

Lemma padding_only_widens_witness :
  exists axis',
    beforePadding plot200x100 axisTwoPoints = Some axis' /\
    Axis.min axis' <= Axis.min axisTwoPoints /\
    Axis.max axisTwoPoints <= Axis.max axis'.
Proof.
  eapply (padding_only_widens plot200x100 axisTwoPoints)
    with (zMin := 5) (zMax := 5) (pxMin := -10) (pxMax := 110).
  - unfold axisTwoPoints, fixed20, plot200x100. js_eval. reflexivity.
  - unfold axisTwoPoints, fixed20, plot200x100. js_eval.
    ceil_is 20%Z. js_eval. do 2 f_equal. f_equal; lra.
  - cbn. lra.
  - cbn. lra.
Defined.

(** X18.  When both sides of the axis are open, the translate factor that
    the run scales is the factor of the extent it leaves:
    [axisLength / (max - min)] on the padded axis equals the scaled
    [transA]. *)
Theorem scaled_factor_is_the_padded_factor {H : Utilities}
        (chart : Chart) (axis : Axis.t)
        (ss1 ss2 : list Series) (zMin zMax pxMin pxMax : R) :
  collect chart (Axis.isXAxis axis) (Axis.series axis)
          Number.MAX_VALUE (- Number.MAX_VALUE) = Some (ss1, (zMin, zMax)) ->
  measure chart axis zMin zMax ss1 (Some (0, Axis.len axis))
  = Some (ss2, (pxMin, pxMax)) ->
  (exists s, In s (Axis.series axis) /\ isActive chart s = true) ->
  0 < Axis.max axis - Axis.min axis ->
  Axis.isLog axis = false ->
  unpinned (Axis.options_min axis) (Axis.userMin axis) = true ->
  unpinned (Axis.options_max axis) (Axis.userMax axis) = true ->
  0 < Axis.len axis ->
  pxMax - Axis.len axis - pxMin < Axis.len axis ->
  exists axis',
    beforePadding chart axis = Some axis' /\
    Axis.len axis' / (Axis.max axis' - Axis.min axis')
    = paddedTransA axis pxMin pxMax.
Proof.
  intros Hc Hm Hcon Hr Hlog Hlo Hhi Hlen Hover.
  exists (pad chart axis ss2 pxMin pxMax).
  split.
  { rewrite (beforePadding_closing chart axis _ _ _ _ _ _ Hc Hm).
    now rewrite writesNonNumber_room. }
  destruct (measure_each chart axis _ _ _ _ _ _ Hm) as [HF2 _].
  assert (existsb (isActive chart) ss2 = true) as Hex.
  { rewrite (existsb_Forall2 chart _ _ _
               (radiiSet_isActive chart axis zMin zMax) HF2).
    rewrite (existsb_Forall2 chart _ _ _
               (collected_isActive chart (Axis.isXAxis axis))
               (collect_each chart _ _ _ _ _ _ Hc)).
    now apply existsb_isActive_In. }
  unfold pad. cbn [Axis.len Axis.min Axis.max].
  rewrite Hex, Hlog, Hlo, Hhi. unfold range.
  rewrite Rltb_true by assumption. simpl.
  unfold paddedTransA, transA, range. field. repeat split; try lra.
  match goal with
  | |- ?e <> 0 =>
      replace e with ((Axis.max axis - Axis.min axis) * Axis.len axis) by ring
  end.
  apply Rgt_not_eq. apply Rmult_lt_0_compat; lra.
Qed.

Lemma scaled_factor_is_the_padded_factor_witness :
  exists axis',
    beforePadding plot200x100 axisTwoPoints = Some axis' /\
    Axis.len axis' / (Axis.max axis' - Axis.min axis')
    = paddedTransA axisTwoPoints (-10) 110.
Proof.
  eapply (scaled_factor_is_the_padded_factor plot200x100 axisTwoPoints)
    with (zMin := 5) (zMax := 5).
  - unfold axisTwoPoints, fixed20, plot200x100. js_eval. reflexivity.
  - unfold axisTwoPoints, fixed20, plot200x100. js_eval.
    ceil_is 20%Z. js_eval. do 2 f_equal. f_equal; lra.
  - eexists. split; [left; reflexivity | reflexivity].
  - cbn. lra.
  - reflexivity.
  - reflexivity.
  - reflexivity.
  - cbn. lra.
  - cbn. lra.
Defined.

(** X19.  With both sides open, the old extent keeps exactly the room that
    was measured: on the padded axis the old [min] sits [-pxMin] pixels
    inside the plot and the old [max] sits [pxMax - axisLength] pixels
    before its end. *)
Theorem old_extent_keeps_measured_room {H : Utilities}
        (chart : Chart) (axis : Axis.t)
        (ss1 ss2 : list Series) (zMin zMax pxMin pxMax : R) :
  collect chart (Axis.isXAxis axis) (Axis.series axis)
          Number.MAX_VALUE (- Number.MAX_VALUE) = Some (ss1, (zMin, zMax)) ->
  measure chart axis zMin zMax ss1 (Some (0, Axis.len axis))
  = Some (ss2, (pxMin, pxMax)) ->
  (exists s, In s (Axis.series axis) /\ isActive chart s = true) ->
  0 < Axis.max axis - Axis.min axis ->
  Axis.isLog axis = false ->
  unpinned (Axis.options_min axis) (Axis.userMin axis) = true ->
  unpinned (Axis.options_max axis) (Axis.userMax axis) = true ->
  0 < Axis.len axis ->
  pxMax - Axis.len axis - pxMin < Axis.len axis ->
  exists axis',
    beforePadding chart axis = Some axis' /\
    (Axis.min axis - Axis.min axis') * transA axis' = - pxMin /\
    (Axis.max axis - Axis.min axis') * transA axis'
    = Axis.len axis - (pxMax - Axis.len axis).
Proof.
  intros Hc Hm Hcon Hr Hlog Hlo Hhi Hlen Hover.
  exists (pad chart axis ss2 pxMin pxMax).
  split.
  { rewrite (beforePadding_closing chart axis _ _ _ _ _ _ Hc Hm).
    now rewrite writesNonNumber_room. }
  destruct (measure_each chart axis _ _ _ _ _ _ Hm) as [HF2 _].
  assert (existsb (isActive chart) ss2 = true) as Hex.
  { rewrite (existsb_Forall2 chart _ _ _
               (radiiSet_isActive chart axis zMin zMax) HF2).
    rewrite (existsb_Forall2 chart _ _ _
               (collected_isActive chart (Axis.isXAxis axis))
               (collect_each chart _ _ _ _ _ _ Hc)).
    now apply existsb_isActive_In. }
  assert ((Axis.max axis - Axis.min axis) * Axis.len axis <> 0) as Hnz
      by (apply Rgt_not_eq; apply Rmult_lt_0_compat; lra).
  unfold transA, range, pad. cbn [Axis.len Axis.min Axis.max].
  rewrite Hex, Hlog, Hlo, Hhi. unfold range.
  rewrite Rltb_true by assumption. simpl.
  unfold paddedTransA, transA, range.
  split; field; repeat split; try lra;
    match goal with
    | |- ?e <> 0 =>
        replace e with ((Axis.max axis - Axis.min axis) * Axis.len axis) by ring
    end; exact Hnz.
Qed.

Lemma old_extent_keeps_measured_room_witness :
  exists axis',
    beforePadding plot200x100 axisTwoPoints = Some axis' /\
    (Axis.min axisTwoPoints - Axis.min axis') * transA axis' = - -10 /\
    (Axis.max axisTwoPoints - Axis.min axis') * transA axis'
    = Axis.len axisTwoPoints - (110 - Axis.len axisTwoPoints).
Proof.
  eapply (old_extent_keeps_measured_room plot200x100 axisTwoPoints)
    with (zMin := 5) (zMax := 5).
  - unfold axisTwoPoints, fixed20, plot200x100. js_eval. reflexivity.
  - unfold axisTwoPoints, fixed20, plot200x100. js_eval.
    ceil_is 20%Z. js_eval. do 2 f_equal. f_equal; lra.
  - eexists. split; [left; reflexivity | reflexivity].
  - cbn. lra.
  - reflexivity.
  - reflexivity.
  - reflexivity.
  - cbn. lra.
  - cbn. lra.
Defined.

(** ** The collection: a z option on a series *)

(** X20.  A [zMin] or [zMax] option does not join the running extreme, it
    replaces it: when the last contributing series with data sets one, the
    global value is that option, whatever the series before it
    contributed. *)
Theorem z_option_replaces_running_extreme {H : Utilities} (chart : Chart)
        (l : list Series) (s : Series) (zMin0 zMax0 : R)
        (ss : list Series) (zMin zMax : R) :
  isActive chart s = true ->
  zData s <> [] ->
  collect chart true (l ++ [s]) zMin0 zMax0 = Some (ss, (zMin, zMax)) ->
  (forall r, opt_zMin (options s) = JNum r -> zMin = r) /\
  (forall r, opt_zMax (options s) = JNum r -> zMax = r).
Proof.
  intros Ha Hz. revert zMin0 zMax0 ss.
  induction l as [|s0 l IH]; intros zMin0 zMax0 ss; cbn [app collect].
  - rewrite Ha. cbn [andb].
    destruct (extreme chart (minSize (options s))) as [lo|]; [|discriminate].
    destruct (extreme chart (maxSize (options s))) as [hi|]; [|discriminate].
    destruct (findZ (options s) (zData s) zMin0 zMax0) as [[a b]|] eqn:Ef;
      [|discriminate].
    intros [= _ <- <-]. unfold findZ in Ef.
    destruct (zData s) as [|d ds]; [congruence|].
    destruct (ToNumber (pick (opt_zMin (options s)) _)) as [a'|] eqn:Ea;
      [|discriminate].
    destruct (ToNumber (pick (opt_zMax (options s)) _)) as [b'|] eqn:Eb;
      [|discriminate].
    injection Ef as <- <-. split; intros r Er.
    + rewrite Er in Ea. simpl in Ea. now injection Ea.
    + rewrite Er in Eb. simpl in Eb. now injection Eb.
  - destruct (isActive chart s0 && true).
    + destruct (extreme chart (minSize (options s0))) as [lo|]; [|discriminate].
      destruct (extreme chart (maxSize (options s0))) as [hi|]; [|discriminate].
      destruct (findZ (options s0) (zData s0) zMin0 zMax0) as [[a b]|];
        [|discriminate].
      destruct (collect chart true (l ++ [s]) a b) as [[rest [a' b']]|] eqn:Ec;
        [|discriminate].
      intros [= _ <- <-]. eapply IH; eassumption.
    + destruct (collect chart true (l ++ [s]) zMin0 zMax0)
        as [[rest [a' b']]|] eqn:Ec; [|discriminate].
      intros [= _ <- <-]. eapply IH; eassumption.
Qed.

(** A series with z values 1 and 2 before the series with [zMin: 5] and
    [zMax: 10]. *)
Lemma z_option_replaces_running_extreme_witness :
  exists ss,
    collect plot200x100 true
            ([fixed20z [Some 1; Some 2]]
               ++ [bubble ranged [Some 2; Some 8] [Some 0; Some 0]
                          [Some 1; Some 5]])
            Number.MAX_VALUE (- Number.MAX_VALUE) = Some (ss, (5, 10)).
Proof.
  assert (exists ss zMin zMax,
             collect plot200x100 true
                     ([fixed20z [Some 1; Some 2]]
                        ++ [bubble ranged [Some 2; Some 8] [Some 0; Some 0]
                                   [Some 1; Some 5]])
                     Number.MAX_VALUE (- Number.MAX_VALUE)
             = Some (ss, (zMin, zMax))) as [ss [zMin [zMax E]]].
  { unfold fixed20z, fixed20, ranged, plot200x100. js_eval.
    eexists _, _, _. reflexivity. }
  destruct (z_option_replaces_running_extreme
              plot200x100 [fixed20z [Some 1; Some 2]]
              (bubble ranged [Some 2; Some 8] [Some 0; Some 0] [Some 1; Some 5])
              Number.MAX_VALUE (- Number.MAX_VALUE) ss zMin zMax eq_refl
              ltac:(discriminate) E) as [Hlo Hhi].
  exists ss. rewrite E. now rewrite (Hlo 5 eq_refl), (Hhi 10 eq_refl).
Defined.

(** ** Hidden series *)

Section Hidden.

Context {H : Utilities}.
Variable chart : Chart.
Hypothesis counted : ignoreHiddenSeries chart = false.

Lemma isActive_hide s : isActive chart (hide s) = isActive chart s.
Proof.
  unfold isActive. cbn [hide bubblePadding visible]. rewrite counted.
  now destruct (bubblePadding s), (visible s).
Qed.

Lemma collect_hide isX l :
  forall zMin zMax,
    collect chart isX (map hide l) zMin zMax
    = match collect chart isX l zMin zMax with
      | Some (l', z) => Some (map hide l', z)
      | None => None
      end.
Proof.
  induction l as [|s l IH]; intros zMin zMax; [reflexivity|].
  cbn [map collect]. rewrite isActive_hide.
  cbn [hide options zData]. destruct (isActive chart s && isX).
  - destruct (extreme chart (minSize (options s))) as [lo|]; [|reflexivity].
    destruct (extreme chart (maxSize (options s))) as [hi|]; [|reflexivity].
    destruct (findZ (options s) (zData s) zMin zMax) as [[a b]|]; [|reflexivity].
    rewrite IH. now destruct (collect chart isX l a b) as [[l' z]|].
  - rewrite IH. now destruct (collect chart isX l zMin zMax) as [[l' z]|].
Qed.

Lemma padSeries_hide axis zMin zMax s px :
  padSeries axis zMin zMax (hide s) px
  = match padSeries axis zMin zMax s px with
    | Some (s1, px1) => Some (hide s1, px1)
    | None => None
    end.
Proof.
  unfold padSeries, dataOf. cbn [hide minPxSize maxPxSize].
  destruct (Axis.isXAxis axis).
  - destruct (ToNumber (minPxSize s)) as [lo|]; [|reflexivity].
    destruct (ToNumber (maxPxSize s)) as [hi|]; reflexivity.
  - reflexivity.
Qed.

Lemma measure_hide axis zMin zMax l :
  forall px,
    measure chart axis zMin zMax (map hide l) px
    = match measure chart axis zMin zMax l px with
      | Some (l', p) => Some (map hide l', p)
      | None => None
      end.
Proof.
  induction l as [|s l IH]; intros px.
  - simpl. now destruct px.
  - cbn [map measure]. rewrite isActive_hide. destruct (isActive chart s).
    + rewrite padSeries_hide.
      destruct (padSeries axis zMin zMax s px) as [[s1 px1]|]; [|reflexivity].
      rewrite IH. now destruct (measure chart axis zMin zMax l px1) as [[l' p]|].
    + rewrite IH. now destruct (measure chart axis zMin zMax l px) as [[l' p]|].
Qed.

Lemma existsb_hide l :
  existsb (isActive chart) (map hide l) = existsb (isActive chart) l.
Proof.
  induction l as [|s l IH]; simpl; [reflexivity|].
  now rewrite isActive_hide, IH.
Qed.

End Hidden.

(** X21.  Unless the chart ignores hidden series, hiding series changes
    nothing for the axis: the run pads the axis with all its series hidden
    to the same extent as with the series as they are. *)
Theorem hidden_series_still_pad {H : Utilities} (chart : Chart) (axis : Axis.t) :
  ignoreHiddenSeries chart = false ->
  option_map extent
             (beforePadding chart (withSeries axis (map hide (Axis.series axis))))
  = option_map extent (beforePadding chart axis).
Proof.
  intros Hc. unfold beforePadding.
  cbn [withSeries Axis.isXAxis Axis.series Axis.len].
  rewrite (collect_hide chart Hc).
  destruct (collect chart _ (Axis.series axis) _ _) as [[ss1 [zMin zMax]]|];
    [|reflexivity].
  change (measure chart (withSeries axis (map hide (Axis.series axis))))
    with (measure chart axis).
  rewrite (measure_hide chart Hc).
  destruct (measure chart axis zMin zMax ss1 _) as [[ss2 [pxMin pxMax]]|];
    [|reflexivity].
  assert (writesNonNumber chart
            (withSeries axis (map hide (Axis.series axis)))
            (map hide ss2) pxMin pxMax
          = writesNonNumber chart axis ss2 pxMin pxMax) as ->.
  { unfold writesNonNumber. now rewrite (existsb_hide chart Hc). }
  destruct (writesNonNumber chart axis ss2 pxMin pxMax); [reflexivity|].
  unfold option_map, extent, pad. cbn [Axis.min Axis.max].
  now rewrite (existsb_hide chart Hc).
Qed.

(** One hidden bubble of radius 10 at the left end of the axis. *)
Lemma hidden_series_still_pad_witness :
  option_map extent
             (beforePadding plotCountingHidden
                            (withSeries axisOnePoint
                                        (map hide (Axis.series axisOnePoint))))
  = option_map extent (beforePadding plotCountingHidden axisOnePoint).
Proof.
  apply (hidden_series_still_pad plotCountingHidden axisOnePoint).
  reflexivity.
Defined.

(** ** Points without a z value, on the whole run *)

Section WithoutPoint.

Context {H : Utilities}.
Variable chart : Chart.
Variable n : nat.




Variable axis : Axis.t.


End WithoutPoint.




(** Where the collection does not find the same z extremes: with z = 5,
    [null], 10 the [null] is read as 0 and becomes the global [zMin], the
    bubble of z = 5 grows from radius 5 to radius 10, and the run ends on
    [-4/3, 12] instead of [-5/8, 95/8]. *)
Lemma null_z_point_read_as_zero_resizes :
  option_map extent (beforePadding plot200x100 axisHoledAbove)
  = Some (-4 / 3, 12) /\
  option_map extent (beforePadding plot200x100 axisHoledAboveWithout)
  = Some (-5 / 8, 95 / 8).
Proof.
  split.
  - unfold axisHoledAbove, mixed, plot200x100. js_eval.
    ceil_is 20%Z. ceil_is 30%Z. js_eval.
    unfold extent. cbn [Axis.min Axis.max]. do 2 f_equal; field.
  - unfold axisHoledAboveWithout, mixed, plot200x100. js_eval.
    ceil_is 10%Z. ceil_is 30%Z. js_eval.
    unfold extent. cbn [Axis.min Axis.max]. do 2 f_equal; field.
Qed.

(** ** Running the pass again: when the second run is idle *)


Section Fixed.

Variable axis : Axis.t.





End Fixed.

Section Rerun.

Context {H : Utilities}.
Variable chart : Chart.
Variable axis : Axis.t.
Variables zMin zMax : R.





End Rerun.



